(** * Incident-lag simulator: the deterministic replay engine

    A shallow embedding of [simulate_incident.py]: the per-tick state
    machine that applies scripted events, evaluates one service request,
    computes the cached observer colour and runs the automated
    remediation step, followed by the properties of that engine.

    Python integers are unbounded, so they are [Z]; [Optional[int]] is
    [option Z]; strings stay strings (the observer colour and the request
    reason are compared as strings in the source); the dictionary
    [events_by_tick] is a [gmap Z (list Event)]; the mutable [State] is
    passed explicitly; a raised exception is the [Raise] case of
    [result], with its class and message.

    The configuration is taken as loaded: an entry of [incident_events]
    carries an integer under ["tick"] and a string under ["event"]; its
    ["details"] entry may be absent, a mapping, or any other YAML value
    (a bare [details:] loads as null).  Parsing the YAML file is outside
    the engine. *)

From Stdlib Require Import ZArith String List Lia.
From stdpp Require Import base option list gmap strings pretty.

Open Scope string_scope.
Open Scope Z_scope.

(** ** Exceptions *)

(** The exceptions the program can leave through, by class, with their
    message; [OSError] stands for its subclasses and carries the name of
    the subclass. *)
Inductive exn : Type :=
| ValueError (msg : string)
| AttributeError (msg : string)
| OSError (class msg : string).

Inductive result (A : Type) : Type :=
| Ok (a : A)
| Raise (e : exn).
Arguments Ok {A} a.
Arguments Raise {A} e.

#[global] Instance result_ret : MRet result := fun A a => Ok a.

#[global] Instance result_bind : MBind result := fun A B k r =>
  match r with
  | Ok a => k a
  | Raise e => Raise e
  end.

(** ** Model *)

Record Params : Type := mkParams {
  propagation_lag_ticks : Z;
  observer_cache_ttl_ticks : Z;
  automation_trigger_after_ticks : Z
}.

Record State : Type := mkState {
  tick : Z;
  role_attached_tick : option Z;
  required_role : string;
  service_account_deployed : bool;
  service_account_in_use : bool;
  service_account_revoked : bool;
  cached_red_until_tick : option Z;
  consecutive_observed_red : Z;
  operator_assumption_tick : option Z;
  automation_action_tick : option Z;
  total_requests : Z;
  denied_requests : Z;
  revoked_requests : Z
}.

(** [State()] with every field at its dataclass default. *)
Definition State_default : State :=
  mkState 0 None "unknown" false false false None 0 None None 0 0 0.

(** Field assignments [state.f = v]. *)
Definition set_tick (v : Z) (s : State) : State :=
  mkState v (role_attached_tick s) (required_role s)
    (service_account_deployed s) (service_account_in_use s)
    (service_account_revoked s) (cached_red_until_tick s)
    (consecutive_observed_red s) (operator_assumption_tick s)
    (automation_action_tick s) (total_requests s) (denied_requests s)
    (revoked_requests s).

Definition set_role_attached_tick (v : option Z) (s : State) : State :=
  mkState (tick s) v (required_role s)
    (service_account_deployed s) (service_account_in_use s)
    (service_account_revoked s) (cached_red_until_tick s)
    (consecutive_observed_red s) (operator_assumption_tick s)
    (automation_action_tick s) (total_requests s) (denied_requests s)
    (revoked_requests s).

Definition set_required_role (v : string) (s : State) : State :=
  mkState (tick s) (role_attached_tick s) v
    (service_account_deployed s) (service_account_in_use s)
    (service_account_revoked s) (cached_red_until_tick s)
    (consecutive_observed_red s) (operator_assumption_tick s)
    (automation_action_tick s) (total_requests s) (denied_requests s)
    (revoked_requests s).

Definition set_service_account_deployed (v : bool) (s : State) : State :=
  mkState (tick s) (role_attached_tick s) (required_role s)
    v (service_account_in_use s)
    (service_account_revoked s) (cached_red_until_tick s)
    (consecutive_observed_red s) (operator_assumption_tick s)
    (automation_action_tick s) (total_requests s) (denied_requests s)
    (revoked_requests s).

Definition set_service_account_in_use (v : bool) (s : State) : State :=
  mkState (tick s) (role_attached_tick s) (required_role s)
    (service_account_deployed s) v
    (service_account_revoked s) (cached_red_until_tick s)
    (consecutive_observed_red s) (operator_assumption_tick s)
    (automation_action_tick s) (total_requests s) (denied_requests s)
    (revoked_requests s).

Definition set_service_account_revoked (v : bool) (s : State) : State :=
  mkState (tick s) (role_attached_tick s) (required_role s)
    (service_account_deployed s) (service_account_in_use s)
    v (cached_red_until_tick s)
    (consecutive_observed_red s) (operator_assumption_tick s)
    (automation_action_tick s) (total_requests s) (denied_requests s)
    (revoked_requests s).

Definition set_cached_red_until_tick (v : option Z) (s : State) : State :=
  mkState (tick s) (role_attached_tick s) (required_role s)
    (service_account_deployed s) (service_account_in_use s)
    (service_account_revoked s) v
    (consecutive_observed_red s) (operator_assumption_tick s)
    (automation_action_tick s) (total_requests s) (denied_requests s)
    (revoked_requests s).

Definition set_consecutive_observed_red (v : Z) (s : State) : State :=
  mkState (tick s) (role_attached_tick s) (required_role s)
    (service_account_deployed s) (service_account_in_use s)
    (service_account_revoked s) (cached_red_until_tick s)
    v (operator_assumption_tick s)
    (automation_action_tick s) (total_requests s) (denied_requests s)
    (revoked_requests s).

Definition set_operator_assumption_tick (v : option Z) (s : State) : State :=
  mkState (tick s) (role_attached_tick s) (required_role s)
    (service_account_deployed s) (service_account_in_use s)
    (service_account_revoked s) (cached_red_until_tick s)
    (consecutive_observed_red s) v
    (automation_action_tick s) (total_requests s) (denied_requests s)
    (revoked_requests s).

Definition set_automation_action_tick (v : option Z) (s : State) : State :=
  mkState (tick s) (role_attached_tick s) (required_role s)
    (service_account_deployed s) (service_account_in_use s)
    (service_account_revoked s) (cached_red_until_tick s)
    (consecutive_observed_red s) (operator_assumption_tick s)
    v (total_requests s) (denied_requests s)
    (revoked_requests s).

Definition set_total_requests (v : Z) (s : State) : State :=
  mkState (tick s) (role_attached_tick s) (required_role s)
    (service_account_deployed s) (service_account_in_use s)
    (service_account_revoked s) (cached_red_until_tick s)
    (consecutive_observed_red s) (operator_assumption_tick s)
    (automation_action_tick s) v (denied_requests s)
    (revoked_requests s).

Definition set_denied_requests (v : Z) (s : State) : State :=
  mkState (tick s) (role_attached_tick s) (required_role s)
    (service_account_deployed s) (service_account_in_use s)
    (service_account_revoked s) (cached_red_until_tick s)
    (consecutive_observed_red s) (operator_assumption_tick s)
    (automation_action_tick s) (total_requests s) v
    (revoked_requests s).

Definition set_revoked_requests (v : Z) (s : State) : State :=
  mkState (tick s) (role_attached_tick s) (required_role s)
    (service_account_deployed s) (service_account_in_use s)
    (service_account_revoked s) (cached_red_until_tick s)
    (consecutive_observed_red s) (operator_assumption_tick s)
    (automation_action_tick s) (total_requests s) (denied_requests s)
    v.

(** What an event holds under ["details"]: nothing (the key is absent),
    a mapping, or a value of another type, given by the name of its
    Python type (["NoneType"] for null, ["str"], ["int"], ["list"], ...).
    The values of a mapping are taken by their [str()] rendering, which
    is all the engine does with them. *)
Inductive Details : Type :=
| NoDetails
| DetailsMapping (m : gmap string string)
| DetailsOther (type_name : string).

(** One entry of [incident_events]: the keys ["tick"], ["event"] and
    ["details"] of the configuration record. *)
Record Event : Type := mkEvent {
  ev_tick : Z;
  ev_event : string;
  ev_details : Details
}.

(** [event.get("details", {}).get(key, default)]: the first [get]
    returns the stored value when the key is present, whatever it is, and
    only a mapping has a second [get]. *)
Definition details_get (d : Details) (key dflt : string) : result string :=
  match d with
  | NoDetails => Ok (default dflt ((∅ : gmap string string) !! key))
  | DetailsMapping m => Ok (default dflt (m !! key))
  | DetailsOther type_name =>
      Raise (AttributeError
               ("'" +:+ type_name +:+ "' object has no attribute 'get'"))
  end.

(** What [run] reads from the loaded configuration. *)
Record Config : Type := mkConfig {
  scenario_name : string;
  max_tick : Z;
  parameters : Params;
  regions : list string;
  incident_events : list Event
}.

(** ** Strings *)

(** Python's [needle in hay] on strings: [needle] starts at some
    position of [hay]. *)
Fixpoint str_in (needle hay : string) : bool :=
  String.prefix needle hay
  || match hay with
     | EmptyString => false
     | String _ rest => str_in needle rest
     end.

(** ** The four sub-steps *)

Definition _region_enforces_role
    (t : Z) (attached : option Z) (lag : Z) : bool :=
  match attached with
  | None => false
  | Some a => t >=? a + lag
  end.

(** The loop returns at the first region for which the check fails; the
    check itself does not depend on the region. *)
Fixpoint _service_request_regions
    (state : State) (params : Params) (rs : list string) : bool * string :=
  match rs with
  | [] => (true, "OK")
  | r :: rest =>
      if negb (_region_enforces_role (tick state) (role_attached_tick state)
                 (propagation_lag_ticks params))
      then (false, "PERMISSION_DENIED(" +:+ r +:+ ")")
      else _service_request_regions state params rest
  end.

Definition _service_request
    (state : State) (params : Params) (rs : list string) : bool * string :=
  if negb (service_account_in_use state) then (false, "SERVICE_NOT_STARTED")
  else if service_account_revoked state then (false, "SERVICE_ACCOUNT_REVOKED")
  else _service_request_regions state params rs.

Definition _observer_color
    (state : State) (params : Params) (request_ok : bool) : State * string :=
  if negb request_ok then
    (set_cached_red_until_tick
       (Some (tick state + observer_cache_ttl_ticks params)) state, "RED")
  else
    match cached_red_until_tick state with
    | Some c => if tick state <=? c then (state, "RED") else (state, "GREEN")
    | None => (state, "GREEN")
    end.

Definition AUTOMATION_REVOKE : string :=
  "AUTOMATION_REVOKE_SERVICE_ACCOUNT (misclassified propagation lag as compromise/misconfig)".

Definition _automation_step
    (state : State) (params : Params) (observed_color : string)
    : State * option string :=
  let state :=
    if String.eqb observed_color "RED"
    then set_consecutive_observed_red (consecutive_observed_red state + 1) state
    else set_consecutive_observed_red 0 state in
  if negb (service_account_revoked state)
     && (consecutive_observed_red state >=? automation_trigger_after_ticks params)
  then
    let state := set_service_account_revoked true state in
    let state := set_automation_action_tick (Some (tick state)) state in
    (state, Some AUTOMATION_REVOKE)
  else (state, None).

Definition _apply_event (state : State) (event : Event) : result (State * string) :=
  let e := ev_event event in
  if String.eqb e "deploy_service_account" then
    Ok (set_service_account_deployed true state, "deploy_service_account")
  else if String.eqb e "attach_required_role" then
    let state := set_role_attached_tick (Some (tick state)) state in
    role ← details_get (ev_details event) "role" "unknown_role";
    let state := set_required_role role state in
    Ok (state, "attach_required_role(" +:+ required_role state +:+ ") control_plane_ack")
  else if String.eqb e "service_starts_using_service_account" then
    if negb (service_account_deployed state) then
      Raise (ValueError "service started using SA before SA deployed")
    else
      Ok (set_service_account_in_use true state, "service_starts_using_service_account")
  else if String.eqb e "operator_assumes_propagation_complete" then
    Ok (set_operator_assumption_tick (Some (tick state)) state,
        "operator_assumes_propagation_complete (control-plane view)")
  else Raise (ValueError ("Unknown event: " +:+ e)).

(** ** The tick driver *)

Record MetricsRow : Type := mkMetricsRow {
  mr_tick : Z;
  mr_request_result : string;
  mr_observer : string;
  mr_consecutive_observed_red : Z;
  mr_service_account_revoked : Z;
  mr_role_attached_tick : option Z
}.

Record Summary : Type := mkSummary {
  sm_scenario_name : string;
  sm_max_tick : Z;
  sm_required_role : string;
  sm_role_attached_tick : option Z;
  sm_operator_assumption_tick : option Z;
  sm_automation_action_tick : option Z;
  sm_total_requests : Z;
  sm_denied_requests : Z;
  sm_revoked_requests : Z;
  sm_propagation_lag_ticks : Z;
  sm_observer_cache_ttl_ticks : Z;
  sm_automation_trigger_after_ticks : Z
}.

(** [events_by_tick.setdefault(t, []).append(item)] for every item. *)
Definition group_events (items : list Event) : gmap Z (list Event) :=
  fold_left
    (fun (m : gmap Z (list Event)) item =>
       let t := ev_tick item in
       <[t := (default [] (m !! t) ++ [item])%list]> m)
    items ∅.

(** The local variables of [run] that the loop updates. *)
Record Run : Type := mkRun {
  state : State;
  timeline_lines : list string;
  metrics_rows : list MetricsRow
}.

Definition Run_init : Run := mkRun State_default [] [].

(** The inner loop over the events scheduled for tick [t]. *)
Fixpoint apply_events
    (t : Z) (evs : list Event) (st : State) (tl : list string)
    : result (State * list string) :=
  match evs with
  | [] => Ok (st, tl)
  | ev :: rest =>
      '(st, action) ← _apply_event st ev;
      apply_events t rest st (tl ++ ["T" +:+ pretty t +:+ ": EVENT " +:+ action])%list
  end.

Definition int_of_bool (b : bool) : Z := if b then 1 else 0.

(** The loop body after the events: request, counters, observer,
    automation, metrics row. *)
Definition serve_tick
    (params : Params) (rs : list string) (t : Z)
    (st : State) (tl : list string) (rows : list MetricsRow) : Run :=
  let '(ok, reason) := _service_request st params rs in
  let st := set_total_requests (total_requests st + 1) st in
  let st :=
    if str_in "PERMISSION_DENIED" reason
    then set_denied_requests (denied_requests st + 1) st else st in
  let st :=
    if String.eqb reason "SERVICE_ACCOUNT_REVOKED"
    then set_revoked_requests (revoked_requests st + 1) st else st in
  let tl := (tl ++ ["T" +:+ pretty t +:+ ": REQUEST " +:+ reason])%list in
  let '(st, obs) := _observer_color st params ok in
  let tl :=
    (tl ++ ["T" +:+ pretty t +:+ ": OBSERVER " +:+ obs +:+ " consecutive_red="
              +:+ pretty (consecutive_observed_red st)])%list in
  let '(st, auto) := _automation_step st params obs in
  let tl :=
    match auto with
    | Some a => (tl ++ ["T" +:+ pretty t +:+ ": DECISION WRONG " +:+ a])%list
    | None => tl
    end in
  let row :=
    mkMetricsRow t reason obs (consecutive_observed_red st)
      (int_of_bool (service_account_revoked st)) (role_attached_tick st) in
  mkRun st tl (rows ++ [row])%list.

(** One iteration of [for t in range(0, max_tick + 1)]. *)
Definition tick_body
    (params : Params) (rs : list string) (events_by_tick : gmap Z (list Event))
    (r : Run) (t : Z) : result Run :=
  let st := set_tick t (state r) in
  '(st, tl) ← apply_events t (default [] (events_by_tick !! t)) st (timeline_lines r);
  Ok (serve_tick params rs t st tl (metrics_rows r)).

Fixpoint run_ticks
    (params : Params) (rs : list string) (events_by_tick : gmap Z (list Event))
    (ts : list Z) (r : Run) : result Run :=
  match ts with
  | [] => Ok r
  | t :: rest =>
      r ← tick_body params rs events_by_tick r t;
      run_ticks params rs events_by_tick rest r
  end.

(** [range(0, n)]. *)
Definition range0 (n : Z) : list Z := map Z.of_nat (seq 0 (Z.to_nat n)).

Definition summarise (cfg : Config) (st : State) : Summary :=
  let params := parameters cfg in
  mkSummary (scenario_name cfg) (max_tick cfg) (required_role st)
    (role_attached_tick st) (operator_assumption_tick st)
    (automation_action_tick st) (total_requests st) (denied_requests st)
    (revoked_requests st) (propagation_lag_ticks params)
    (observer_cache_ttl_ticks params) (automation_trigger_after_ticks params).

Definition run (cfg : Config) : result (list string * list MetricsRow * Summary) :=
  let events_by_tick := group_events (incident_events cfg) in
  r ← run_ticks (parameters cfg) (regions cfg) events_by_tick
        (range0 (max_tick cfg + 1)) Run_init;
  Ok (timeline_lines r, metrics_rows r, summarise cfg (state r)).

(** What [main] hands to the artifact writer or verifier: the timeline
    text and the metrics rows.  [run] is called first, so an exception
    raised inside it leaves [main] before either artifact exists. *)
Definition main_artifacts (cfg : Config) : result (string * list MetricsRow) :=
  '(timeline, rows, _) ← run cfg;
  Ok (String.concat (String (Ascii.ascii_of_nat 10) "") timeline
        +:+ String (Ascii.ascii_of_nat 10) "", rows).

(** ** Observing a run tick by tick *)

(** The loop variables after the first [n] iterations (ticks [0..n-1]). *)
Definition run_upto (cfg : Config) (n : nat) : result Run :=
  run_ticks (parameters cfg) (regions cfg) (group_events (incident_events cfg))
    (range0 (Z.of_nat n)) Run_init.

(** The events [events_by_tick.get(t, [])] of a configuration. *)
Definition events_at (cfg : Config) (t : Z) : list Event :=
  default [] (group_events (incident_events cfg) !! t).

(** The state on which the request of tick [n] is evaluated: the state
    left by the earlier ticks, with [tick] set and the events of tick [n]
    applied. *)
Definition at_request (cfg : Config) (n : nat) : result State :=
  r ← run_upto cfg n;
  '(st, _) ← apply_events (Z.of_nat n) (events_at cfg (Z.of_nat n))
              (set_tick (Z.of_nat n) (state r)) (timeline_lines r);
  Ok st.

(** The outcome [(ok, reason)] of the request of tick [n]. *)
Definition request_at (cfg : Config) (n : nat) : result (bool * string) :=
  st ← at_request cfg n;
  Ok (_service_request st (parameters cfg) (regions cfg)).

(** The automation flips [service_account_revoked] during tick [T]. *)
Definition revoked_at (cfg : Config) (T : nat) : Prop :=
  exists a b,
    run_upto cfg T = Ok a /\ service_account_revoked (state a) = false /\
    run_upto cfg (S T) = Ok b /\ service_account_revoked (state b) = true.

(** ** Scenarios *)

(** The end-to-end scenario of the specification. *)
Definition example_cfg : Config :=
  mkConfig "example" 10 (mkParams 3 2 2) ["us-east"]
    [ mkEvent 0 "deploy_service_account" NoDetails;
      mkEvent 0 "attach_required_role" (DetailsMapping {[ "role" := "X" ]});
      mkEvent 0 "service_starts_using_service_account" NoDetails ].

(** A scenario without any event: the service never starts. *)
Definition idle_cfg : Config :=
  mkConfig "idle" 4 (mkParams 3 2 2) ["us-east"] [].

(** A scenario that recovers: one failed request at tick 0, then success,
    with an automation threshold that is never reached. *)
Definition recovery_cfg : Config :=
  mkConfig "recovery" 5 (mkParams 1 2 10) ["us-east"]
    [ mkEvent 0 "deploy_service_account" NoDetails;
      mkEvent 0 "attach_required_role" (DetailsMapping {[ "role" := "X" ]});
      mkEvent 0 "service_starts_using_service_account" NoDetails ].

(** A scenario that attaches the role twice. *)
Definition reattach_cfg : Config :=
  mkConfig "reattach" 3 (mkParams 1 2 10) ["us-east"]
    [ mkEvent 0 "attach_required_role" (DetailsMapping {[ "role" := "X" ]});
      mkEvent 1 "attach_required_role" NoDetails ].

(** A scenario whose RED observations are interrupted: the request of
    tick 0 is denied, tick 1 succeeds on an expired cache, and a second
    attachment at tick 2 denies the request of tick 2 again. *)
Definition interrupted_cfg : Config :=
  mkConfig "interrupted" 3 (mkParams 1 0 2) ["us-east"]
    [ mkEvent 0 "deploy_service_account" NoDetails;
      mkEvent 0 "attach_required_role" (DetailsMapping {[ "role" := "X" ]});
      mkEvent 0 "service_starts_using_service_account" NoDetails;
      mkEvent 2 "attach_required_role" (DetailsMapping {[ "role" := "X" ]}) ].


(** A scenario whose attach_required_role event has a bare [details:]
    entry, which the loader reads as null. *)
Definition null_details_cfg : Config :=
  mkConfig "null-details" 3 (mkParams 1 2 10) ["us-east"]
    [ mkEvent 0 "deploy_service_account" NoDetails;
      mkEvent 1 "attach_required_role" (DetailsOther "NoneType") ].



(** Some event of the list attaches the role. *)
Definition has_attach (evs : list Event) : bool :=
  existsb (fun ev => String.eqb (ev_event ev) "attach_required_role") evs.

(** A serving state on which no role was ever attached. *)
Definition st_no_role : State :=
  mkState 0 None "unknown" true true false None 0 None None 0 0 0.

(** A serving state at tick 5 whose role was attached at tick 0. *)
Definition st_serving : State :=
  mkState 5 (Some 0) "X" true true false None 0 None None 5 0 0.

(** Events touch only the control-plane fields, the lifecycle flags
    [deployed] and [in_use], and the operator audit stamp. *)
Definition engine_fields_kept (st st' : State) : Prop :=
  tick st' = tick st /\
  service_account_revoked st' = service_account_revoked st /\
  cached_red_until_tick st' = cached_red_until_tick st /\
  consecutive_observed_red st' = consecutive_observed_red st /\
  automation_action_tick st' = automation_action_tick st /\
  total_requests st' = total_requests st /\
  denied_requests st' = denied_requests st /\
  revoked_requests st' = revoked_requests st.

(** ** Further observations on runs *)

(** The configuration without the events scheduled outside
    [0 .. max_tick]. *)
Definition drop_outside_horizon (cfg : Config) : Config :=
  mkConfig (scenario_name cfg) (max_tick cfg) (parameters cfg) (regions cfg)
    (filter (fun ev => 0 <= ev_tick ev <= max_tick cfg) (incident_events cfg)).

(** A scenario with an unknown event after the horizon and a premature
    start before it. *)
Definition stray_cfg : Config :=
  mkConfig "stray" 2 (mkParams 1 1 5) ["us-east"; "eu-west"]
    [ mkEvent (-1) "service_starts_using_service_account" NoDetails;
      mkEvent 0 "deploy_service_account" NoDetails;
      mkEvent 1 "operator_assumes_propagation_complete" NoDetails;
      mkEvent 3 "reboot_everything" NoDetails ].

(** A healthy scenario with a threshold of 0: no region, so every
    request succeeds. *)
Definition eager_cfg : Config :=
  mkConfig "eager" 2 (mkParams 0 0 0) []
    [ mkEvent 0 "deploy_service_account" NoDetails;
      mkEvent 0 "service_starts_using_service_account" NoDetails ].

(** The configuration without its operator_assumes_propagation_complete
    events. *)
Definition drop_operator_events (cfg : Config) : Config :=
  mkConfig (scenario_name cfg) (max_tick cfg) (parameters cfg) (regions cfg)
    (filter (fun ev => ev_event ev <> "operator_assumes_propagation_complete")
       (incident_events cfg)).

(** Two states that differ at most in [operator_assumption_tick]. *)
Definition same_but_operator_tick (st1 st2 : State) : Prop :=
  set_operator_assumption_tick None st1 = set_operator_assumption_tick None st2.

(** A scenario in which the operator assumes propagation at tick 1. *)
Definition operator_cfg : Config :=
  mkConfig "operator" 4 (mkParams 3 1 4) ["us-east"]
    [ mkEvent 0 "deploy_service_account" NoDetails;
      mkEvent 0 "attach_required_role" (DetailsMapping {[ "role" := "X" ]});
      mkEvent 0 "service_starts_using_service_account" NoDetails;
      mkEvent 1 "operator_assumes_propagation_complete" NoDetails ].

(** The number of RED entries at the head of a list of colours. *)
Fixpoint leading_red (obs : list string) : nat :=
  match obs with
  | [] => 0%nat
  | o :: rest => if String.eqb o "RED" then S (leading_red rest) else 0%nat
  end.

(** The length of the run of RED entries that ends a list of colours. *)
Definition trailing_red (obs : list string) : nat := leading_red (rev obs).

(** ** Frozen artifact contract *)

(** The file store: path to contents.  Python strings are taken as their
    UTF-8 bytes, so [encode("utf-8")] and a text-mode write on a POSIX
    system leave them as they are.  Directories do not show in the
    store; what [os.makedirs] does is a parameter of [main] below. *)

Definition _read_bytes (fs : gmap string string) (path : string) : option string :=
  fs !! path.

(** The keys of a metrics row, in insertion order. *)
Definition fieldnames : list string :=
  ["tick"; "request_result"; "observer"; "consecutive_observed_red";
   "service_account_revoked"; "role_attached_tick"].

(** [str(None)] and [str(n)]. *)
Definition str_optional (o : option Z) : string :=
  match o with
  | None => "None"
  | Some n => pretty n
  end.

(** The values of a metrics row in the order of [fieldnames], as the csv
    writer receives them ([str] of the integers, the empty string for a
    missing [role_attached_tick]). *)
Definition row_values (r : MetricsRow) : list string :=
  [pretty (mr_tick r); mr_request_result r; mr_observer r;
   pretty (mr_consecutive_observed_red r);
   pretty (mr_service_account_revoked r);
   match mr_role_attached_tick r with
   | None => ""
   | Some a => pretty a
   end].

(** The command-line arguments [main] reads after the configuration is
    loaded. *)
Record Args : Type := mkArgs {
  args_outdir : string;
  args_write : bool;
  args_verify : bool
}.

(** How [main] ends: it returns after printing, or leaves through
    [SystemExit], or through an exception nobody catches. *)
Inductive Outcome : Type :=
| Returned (stdout : list string)
| SystemExit (msg : string)
| Uncaught (e : exn).

(** The lines printed for the summary. *)
Definition summary_lines (sm : Summary) : list string :=
  ["scenario_name=" +:+ sm_scenario_name sm;
   "role_attached_tick=" +:+ str_optional (sm_role_attached_tick sm);
   "operator_assumption_tick=" +:+ str_optional (sm_operator_assumption_tick sm);
   "automation_action_tick=" +:+ str_optional (sm_automation_action_tick sm);
   "denied_requests=" +:+ pretty (sm_denied_requests sm);
   "revoked_requests=" +:+ pretty (sm_revoked_requests sm)].

Definition MISSING : string :=
  "Frozen artifacts missing. Run once with: python simulate_incident.py --write".

Definition TIMELINE_MISMATCH : string :=
  "timeline.log mismatch vs canonical replay. If intentional, re-freeze with --write and commit.".

Definition METRICS_MISMATCH : string :=
  "metrics.csv mismatch vs canonical replay. If intentional, re-freeze with --write and commit.".

(** What [os.makedirs] raises for the empty name. *)
Definition NO_SUCH_DIRECTORY : exn :=
  OSError "FileNotFoundError" "[Errno 2] No such file or directory: ''".

Section Artifacts.

(** Library and operating-system code taken as parameters:
    [hashlib.sha256(b).hexdigest()]; the text the csv writer emits for
    one row of fields (quoting and line terminator included);
    [os.path.join] and [os.path.dirname]; and, for a name that is not
    empty, the exception [os.makedirs(name, exist_ok=True)] raises in the
    environment [main] runs in, if it raises one. *)
Variable sha256_hexdigest : string -> string.
Variable csv_line : list string -> string.
Variable path_join : string -> string -> string.
Variable path_dirname : string -> string.
Variable makedirs_error : string -> option exn.

Definition _sha256_bytes (b : string) : string := sha256_hexdigest b.

(** [os.makedirs(name, exist_ok=True)]: the empty name raises
    [FileNotFoundError]. *)
Definition os_makedirs (name : string) : result unit :=
  if String.eqb name "" then Raise NO_SUCH_DIRECTORY
  else match makedirs_error name with
       | Some e => Raise e
       | None => Ok tt
       end.

Definition _write_text (fs : gmap string string) (path text : string)
    : result (gmap string string) :=
  _ ← os_makedirs (path_dirname path);
  Ok (<[path := text]> fs).

(** [writeheader()] followed by [writerow(r)] for every row. *)
Definition csv_text (names : list string) (rows : list MetricsRow) : string :=
  csv_line names
  +:+ String.concat "" (map (fun r => csv_line (row_values r)) rows).

Definition _write_csv (fs : gmap string string) (path : string)
    (rows : list MetricsRow) : result (gmap string string) :=
  _ ← os_makedirs (path_dirname path);
  let names := match rows with [] => [] | _ :: _ => fieldnames end in
  Ok (<[path := csv_text names rows]> fs).

Definition _serialize_csv (rows : list MetricsRow) : string :=
  match rows with
  | [] => ""
  | _ :: _ => csv_text fieldnames rows
  end.

(** [main] on a loaded configuration: the outcome and the file store it
    leaves.  An exception raised while freezing leaves the store with
    what was written before it. *)
Definition main (cfg : Config) (args : Args) (fs : gmap string string)
    : Outcome * gmap string string :=
  let verify :=
    if negb (args_write args) && negb (args_verify args)
    then true else args_verify args in
  match run cfg with
  | Raise e => (Uncaught e, fs)
  | Ok (timeline, rows, summary) =>
      let timeline_text :=
        String.concat (String (Ascii.ascii_of_nat 10) "") timeline
        +:+ String (Ascii.ascii_of_nat 10) "" in
      let metrics_bytes := _serialize_csv rows in
      let timeline_path := path_join (args_outdir args) "timeline.log" in
      let metrics_path := path_join (args_outdir args) "metrics.csv" in
      let existing_tl := _read_bytes fs timeline_path in
      let existing_mx := _read_bytes fs metrics_path in
      let new_tl := timeline_text in
      let new_mx := metrics_bytes in
      if verify && negb (args_write args) then
        match existing_tl, existing_mx with
        | Some old_tl, Some old_mx =>
            if negb (String.eqb (_sha256_bytes old_tl) (_sha256_bytes new_tl))
            then (SystemExit TIMELINE_MISMATCH, fs)
            else if negb (String.eqb (_sha256_bytes old_mx) (_sha256_bytes new_mx))
            then (SystemExit METRICS_MISMATCH, fs)
            else (Returned ("VERIFY OK" :: summary_lines summary), fs)
        | _, _ => (SystemExit MISSING, fs)
        end
      else
        match _write_text fs timeline_path timeline_text with
        | Raise e => (Uncaught e, fs)
        | Ok fs1 =>
            match _write_csv fs1 metrics_path rows with
            | Raise e => (Uncaught e, fs1)
            | Ok fs2 =>
                (Returned (["WROTE FROZEN ARTIFACTS"; timeline_path; metrics_path]
                             ++ summary_lines summary)%list, fs2)
            end
        end
  end.

End Artifacts.

(** Instances of the parameters, used to run [main] on examples: an
    identity digest, comma-joined fields ended by CR LF, the POSIX
    [join] and [dirname], and an environment in which [os.makedirs]
    raises for the empty name only. *)
Definition plain_digest (b : string) : string := b.

Definition plain_csv_line (fields : list string) : string :=
  String.concat "," fields
  +:+ String (Ascii.ascii_of_nat 13) (String (Ascii.ascii_of_nat 10) "").

Definition SLASH : Ascii.ascii := Ascii.ascii_of_nat 47.

Fixpoint ends_with_slash (s : string) : bool :=
  match s with
  | EmptyString => false
  | String c EmptyString => Ascii.eqb c SLASH
  | String _ rest => ends_with_slash rest
  end.

(** [posixpath.join(a, b)]. *)
Definition posix_join (a b : string) : string :=
  if String.prefix "/" b then b
  else if String.eqb a "" || ends_with_slash a then a +:+ b
  else a +:+ "/" +:+ b.

Fixpoint all_slashes (s : string) : bool :=
  match s with
  | EmptyString => true
  | String c rest => Ascii.eqb c SLASH && all_slashes rest
  end.

Fixpoint has_slash (s : string) : bool :=
  match s with
  | EmptyString => false
  | String c rest => Ascii.eqb c SLASH || has_slash rest
  end.

(** [p[:p.rfind("/") + 1]]. *)
Fixpoint upto_last_slash (p : string) : string :=
  match p with
  | EmptyString => ""
  | String c rest =>
      if Ascii.eqb c SLASH || has_slash rest
      then String c (upto_last_slash rest) else ""
  end.

(** [head.rstrip("/")]. *)
Fixpoint rstrip_slashes (s : string) : string :=
  match s with
  | EmptyString => ""
  | String c rest =>
      if all_slashes s then "" else String c (rstrip_slashes rest)
  end.

(** [posixpath.dirname(p)]. *)
Definition posix_dirname (p : string) : string :=
  let head := upto_last_slash p in
  if negb (String.eqb head "") && negb (all_slashes head)
  then rstrip_slashes head else head.

Definition makedirs_succeeds (name : string) : option exn := None.

(** A scenario with a negative horizon: no tick runs. *)
Definition empty_cfg : Config :=
  mkConfig "empty" (-1) (mkParams 1 1 1) ["us-east"] [].

(** ** Proof tactics *)

(** Name the thirteen fields of a state. *)
Ltac case_state st :=
  destruct st as [tk rat role dep use rev cache streak oat aat tot den rvk].

(** Case analysis on every conditional of the goal. *)
Ltac branches :=
  repeat match goal with
    | |- context [if ?b then _ else _] => destruct b eqn:?; simpl in *
    | |- context [match ?o with Some _ => _ | None => _ end] =>
        destruct o eqn:?; simpl in *
    end.

(** Turn boolean comparisons in the context into propositions. *)
Ltac leb_to_prop :=
  repeat match goal with
    | H : (_ >=? _) = _ |- _ => rewrite Z.geb_leb in H
    | H : (_ <=? _) = true |- _ => apply Z.leb_le in H
    | H : (_ <=? _) = false |- _ => apply Z.leb_gt in H
    end.

(** Case analysis on the branches of [_apply_event] in hypothesis [H]. *)
Ltac event_cases H :=
  unfold _apply_event, details_get in H; cbv zeta in H;
  repeat match type of H with
    | context [if ?b then _ else _] => destruct b eqn:?
    | context [ev_details ?e] => destruct (ev_details e) eqn:?
    end;
  simpl in H.

(** Evaluate a conjunction of closed facts about a concrete scenario. *)
Ltac by_running :=
  repeat match goal with |- _ /\ _ => split end; vm_compute; reflexivity.

(** * Properties *)

(** ** The exception monad *)

Lemma bind_Ok_inv {A B : Type} (r : result A) (k : A -> result B) (b : B) :
  r ≫= k = Ok b -> exists a, r = Ok a /\ k a = Ok b.
Proof. destruct r as [a|msg]; simpl; [eauto | discriminate]. Qed.

(** ** The loop, one tick at a time *)

Lemma run_ticks_app params rs ebt l1 l2 r :
  run_ticks params rs ebt (l1 ++ l2) r
  = run_ticks params rs ebt l1 r ≫= run_ticks params rs ebt l2.
Proof.
  revert r. induction l1 as [|t l1 IH]; intros r; simpl; [reflexivity|].
  destruct (tick_body params rs ebt r t) as [r'|msg]; simpl; [apply IH | reflexivity].
Qed.

Lemma range0_S (n : nat) :
  range0 (Z.of_nat (S n)) = (range0 (Z.of_nat n) ++ [Z.of_nat n])%list.
Proof.
  unfold range0. rewrite !Nat2Z.id, seq_S, map_app. reflexivity.
Qed.

Lemma run_upto_0 cfg : run_upto cfg 0 = Ok Run_init.
Proof. reflexivity. Qed.

Lemma run_upto_S cfg n :
  run_upto cfg (S n)
  = run_upto cfg n ≫= fun r =>
      tick_body (parameters cfg) (regions cfg)
        (group_events (incident_events cfg)) r (Z.of_nat n).
Proof.
  unfold run_upto. rewrite range0_S, run_ticks_app.
  destruct (run_ticks _ _ _ (range0 (Z.of_nat n)) Run_init) as [r|msg]; simpl;
    [|reflexivity].
  destruct (tick_body _ _ _ r (Z.of_nat n)); reflexivity.
Qed.

(** A tick that completes is the events of that tick followed by
    [serve_tick]. *)
Lemma run_upto_S_inv cfg n d :
  run_upto cfg (S n) = Ok d ->
  exists c st tl,
    run_upto cfg n = Ok c /\
    apply_events (Z.of_nat n) (events_at cfg (Z.of_nat n))
      (set_tick (Z.of_nat n) (state c)) (timeline_lines c) = Ok (st, tl) /\
    at_request cfg n = Ok st /\
    d = serve_tick (parameters cfg) (regions cfg) (Z.of_nat n) st tl (metrics_rows c).
Proof.
  rewrite run_upto_S. intros H.
  apply bind_Ok_inv in H as (c & Hc & H). unfold tick_body in H.
  apply bind_Ok_inv in H as ([st tl] & He & H). injection H as <-.
  exists c, st, tl. unfold at_request, events_at. rewrite Hc. simpl.
  rewrite He. auto.
Qed.

Lemma run_upto_le cfg n m d :
  run_upto cfg n = Ok d -> (m <= n)%nat -> exists c, run_upto cfg m = Ok c.
Proof.
  revert d. induction n as [|n IH]; intros d Hd Hle.
  - assert (m = 0%nat) as -> by lia. eauto.
  - destruct (decide (m = S n)) as [->|Hne]; [eauto|].
    apply run_upto_S_inv in Hd as (c & _ & _ & Hc & _).
    apply (IH c Hc). lia.
Qed.

Lemma run_unfold cfg :
  run cfg
  = run_upto cfg (Z.to_nat (max_tick cfg + 1)) ≫= fun r =>
      Ok (timeline_lines r, metrics_rows r, summarise cfg (state r)).
Proof.
  unfold run, run_upto, range0. rewrite Nat2Z.id. reflexivity.
Qed.

(** ** What each sub-step leaves alone *)

Lemma engine_fields_kept_refl st : engine_fields_kept st st.
Proof. unfold engine_fields_kept; tauto. Qed.

Lemma engine_fields_kept_trans a b c :
  engine_fields_kept a b -> engine_fields_kept b c -> engine_fields_kept a c.
Proof. unfold engine_fields_kept; intuition congruence. Qed.

Lemma _apply_event_engine st ev st' action :
  _apply_event st ev = Ok (st', action) -> engine_fields_kept st st'.
Proof.
  unfold engine_fields_kept. intros H. event_cases H;
    try discriminate; inversion H; subst; simpl; tauto.
Qed.

Lemma apply_events_engine t evs st tl st' tl' :
  apply_events t evs st tl = Ok (st', tl') -> engine_fields_kept st st'.
Proof.
  revert st tl. induction evs as [|ev evs IH]; intros st tl; simpl.
  - intros [= <- _]. apply engine_fields_kept_refl.
  - intros H. apply bind_Ok_inv in H as ([st1 a] & H1 & H2).
    eapply engine_fields_kept_trans; [eapply _apply_event_engine|eapply IH]; eauto.
Qed.

(** The state left by [serve_tick], sub-step by sub-step: the three
    sub-steps write disjoint fields, so each can be read off the state
    on which the request was evaluated. *)
Lemma serve_tick_state params rs t st tl rows :
  let req := _service_request st params rs in
  let oc := _observer_color st params (fst req) in
  let au := _automation_step (fst oc) params (snd oc) in
  state (serve_tick params rs t st tl rows)
  = set_total_requests (total_requests st + 1)
      (set_denied_requests
         (if str_in "PERMISSION_DENIED" (snd req)
          then denied_requests st + 1 else denied_requests st)
         (set_revoked_requests
            (if String.eqb (snd req) "SERVICE_ACCOUNT_REVOKED"
             then revoked_requests st + 1 else revoked_requests st)
            (fst au))).
Proof.
  unfold serve_tick. destruct (_service_request st params rs) as [ok reason].
  case_state st. cbn [fst snd].
  destruct (str_in _ reason), (String.eqb reason _), ok;
    unfold _observer_color; simpl; branches;
    unfold _automation_step; simpl; branches; reflexivity.
Qed.

Lemma serve_tick_rows params rs t st tl rows :
  let req := _service_request st params rs in
  let oc := _observer_color st params (fst req) in
  let au := _automation_step (fst oc) params (snd oc) in
  metrics_rows (serve_tick params rs t st tl rows)
  = (rows ++ [mkMetricsRow t (snd req) (snd oc)
               (consecutive_observed_red (fst au))
               (int_of_bool (service_account_revoked (fst au)))
               (role_attached_tick st)])%list.
Proof.
  unfold serve_tick. destruct (_service_request st params rs) as [ok reason].
  case_state st. cbn [fst snd].
  destruct (str_in _ reason), (String.eqb reason _), ok;
    unfold _observer_color; simpl; branches;
    unfold _automation_step; simpl; branches; reflexivity.
Qed.

(** ** Request evaluation *)

Lemma _service_request_regions_denied st params r rest :
  _region_enforces_role (tick st) (role_attached_tick st)
    (propagation_lag_ticks params) = false ->
  _service_request_regions st params (r :: rest)
  = (false, "PERMISSION_DENIED(" +:+ r +:+ ")").
Proof. intros H. simpl. rewrite H. reflexivity. Qed.

Lemma _service_request_regions_ok st params rs :
  _region_enforces_role (tick st) (role_attached_tick st)
    (propagation_lag_ticks params) = true ->
  _service_request_regions st params rs = (true, "OK").
Proof.
  intros H. induction rs as [|r rs IH]; simpl; [reflexivity|].
  rewrite H. exact IH.
Qed.

Lemma _region_enforces_role_false t attached lag :
  _region_enforces_role t attached lag = false
  <-> attached = None \/ exists a, attached = Some a /\ t < a + lag.
Proof.
  unfold _region_enforces_role. destruct attached as [a|].
  - rewrite Z.geb_leb, Z.leb_gt. split.
    + intros H. right. exists a. auto.
    + intros [H|(a' & [= <-] & H)]; [discriminate | exact H].
  - split; auto.
Qed.

Lemma _region_enforces_role_true t attached lag :
  _region_enforces_role t attached lag = true
  <-> exists a, attached = Some a /\ a + lag <= t.
Proof.
  unfold _region_enforces_role. destruct attached as [a|].
  - rewrite Z.geb_leb, Z.leb_le. split.
    + intros H. exists a. auto.
    + intros (a' & [= <-] & H). exact H.
  - split; [discriminate | intros (a & H & _); discriminate].
Qed.

(** C3 (amended): request evaluation is first-applicable-reason-wins.  A
    service account that is not in use gives SERVICE_NOT_STARTED; else a
    revoked one gives SERVICE_ACCOUNT_REVOKED; else, when the region list
    is not empty and no role was ever attached or
    [tick < role_attached_tick + propagation_lag_ticks], the request fails
    with PERMISSION_DENIED naming the first region of the list; otherwise
    (the role is enforced, or the region list is empty) it succeeds with
    reason OK. *)
Theorem service_request_order (st : State) (params : Params) (rs : list string) :
  (service_account_in_use st = false ->
   _service_request st params rs = (false, "SERVICE_NOT_STARTED")) /\
  (service_account_in_use st = true -> service_account_revoked st = true ->
   _service_request st params rs = (false, "SERVICE_ACCOUNT_REVOKED")) /\
  (service_account_in_use st = true -> service_account_revoked st = false ->
   forall r rest, rs = r :: rest ->
   (role_attached_tick st = None \/
    exists a, role_attached_tick st = Some a /\
              tick st < a + propagation_lag_ticks params) ->
   _service_request st params rs = (false, "PERMISSION_DENIED(" +:+ r +:+ ")")) /\
  (service_account_in_use st = true -> service_account_revoked st = false ->
   (rs = [] \/
    exists a, role_attached_tick st = Some a /\
              a + propagation_lag_ticks params <= tick st) ->
   _service_request st params rs = (true, "OK")).
Proof.
  unfold _service_request. repeat split.
  - intros ->. reflexivity.
  - intros -> ->. reflexivity.
  - intros -> -> r rest -> H. simpl negb. cbv iota.
    apply _service_request_regions_denied, _region_enforces_role_false, H.
  - intros -> -> [->|H]; [reflexivity|].
    apply _service_request_regions_ok, _region_enforces_role_true, H.
Qed.

Lemma service_request_order_witness :
  _service_request State_default (mkParams 3 2 2) ["us-east"]
    = (false, "SERVICE_NOT_STARTED") /\
  _service_request (set_service_account_revoked true st_serving)
    (mkParams 3 2 2) ["us-east"] = (false, "SERVICE_ACCOUNT_REVOKED") /\
  _service_request st_no_role (mkParams 3 2 2) ["us-east"; "eu-west"]
    = (false, "PERMISSION_DENIED(us-east)") /\
  _service_request st_serving (mkParams 3 2 2) ["us-east"; "eu-west"]
    = (true, "OK").
Proof.
  split; [|split; [|split]].
  - apply (service_request_order State_default (mkParams 3 2 2) ["us-east"]).
    reflexivity.
  - apply (service_request_order (set_service_account_revoked true st_serving)
             (mkParams 3 2 2) ["us-east"]); reflexivity.
  - destruct (service_request_order st_no_role (mkParams 3 2 2)
                ["us-east"; "eu-west"]) as (_ & _ & H & _).
    apply (H eq_refl eq_refl "us-east" ["eu-west"] eq_refl).
    left; reflexivity.
  - apply (service_request_order st_serving (mkParams 3 2 2)
             ["us-east"; "eu-west"]); [reflexivity | reflexivity |].
    right. exists 0. split; [reflexivity | simpl; lia].
Defined.

(** C3 (as stated) fails on the empty region list: with no role attached
    the claim demands a PERMISSION_DENIED failure, the loop over no region
    returns success. *)
Lemma service_request_order_empty_regions :
  service_account_in_use st_no_role = true /\
  service_account_revoked st_no_role = false /\
  role_attached_tick st_no_role = None /\
  _service_request st_no_role (mkParams 3 2 2) [] = (true, "OK") /\
  ~ (forall st params rs,
       service_account_in_use st = true ->
       service_account_revoked st = false ->
       role_attached_tick st = None ->
       fst (_service_request st params rs) = false).
Proof.
  repeat split. intros H.
  specialize (H st_no_role (mkParams 3 2 2) [] eq_refl eq_refl eq_refl).
  discriminate H.
Qed.

(** C9: with the service account in use and not revoked, an empty region
    list makes the request succeed with reason OK, whatever the tick, the
    role attachment and the propagation lag. *)
Theorem service_request_no_regions (st : State) (params : Params) :
  service_account_in_use st = true ->
  service_account_revoked st = false ->
  _service_request st params [] = (true, "OK").
Proof. unfold _service_request. intros -> ->. reflexivity. Qed.

Lemma service_request_no_regions_witness :
  _service_request st_no_role (mkParams 100 2 2) [] = (true, "OK").
Proof.
  apply (service_request_no_regions st_no_role (mkParams 100 2 2));
    reflexivity.
Defined.

(** The request succeeds exactly when its reason is OK. *)
Lemma _service_request_ok_iff st params rs :
  fst (_service_request st params rs) = true
  <-> snd (_service_request st params rs) = "OK".
Proof.
  unfold _service_request.
  destruct (negb _); [simpl; split; discriminate|].
  destruct (service_account_revoked st); [simpl; split; discriminate|].
  induction rs as [|r rs IH]; simpl; [tauto|].
  destruct (negb _); [simpl; split; discriminate | exact IH].
Qed.

(** ** Observer colour *)

(** C5: a failed request gives RED and arms the cache at
    [tick + observer_cache_ttl_ticks]; a successful request inside an armed
    window ([cached_red_until_tick] set and [tick <= cached_red_until_tick])
    gives RED and leaves the state as it is; anything else gives GREEN
    (and leaves the state as it is). *)
Theorem observer_color_cases (st : State) (params : Params) (request_ok : bool) :
  (request_ok = false ->
   _observer_color st params request_ok
   = (set_cached_red_until_tick
        (Some (tick st + observer_cache_ttl_ticks params)) st, "RED")) /\
  (request_ok = true ->
   (exists c, cached_red_until_tick st = Some c /\ tick st <= c) ->
   _observer_color st params request_ok = (st, "RED")) /\
  (request_ok = true ->
   ~ (exists c, cached_red_until_tick st = Some c /\ tick st <= c) ->
   _observer_color st params request_ok = (st, "GREEN")).
Proof.
  unfold _observer_color. repeat split.
  - intros ->. reflexivity.
  - intros -> (c & -> & Hc). simpl.
    destruct (Z.leb_spec (tick st) c); [reflexivity | lia].
  - intros -> Hno. simpl. destruct (cached_red_until_tick st) as [c|]; [|reflexivity].
    destruct (Z.leb_spec (tick st) c); [|reflexivity].
    exfalso. apply Hno. eauto.
Qed.

Lemma observer_color_cases_witness :
  _observer_color st_serving (mkParams 3 2 2) false
    = (set_cached_red_until_tick (Some 7) st_serving, "RED") /\
  _observer_color (set_cached_red_until_tick (Some 7) st_serving)
    (mkParams 3 2 2) true
    = (set_cached_red_until_tick (Some 7) st_serving, "RED") /\
  _observer_color (set_cached_red_until_tick (Some 4) st_serving)
    (mkParams 3 2 2) true
    = (set_cached_red_until_tick (Some 4) st_serving, "GREEN").
Proof.
  split; [|split].
  - apply (observer_color_cases st_serving (mkParams 3 2 2) false). reflexivity.
  - apply (observer_color_cases (set_cached_red_until_tick (Some 7) st_serving)
             (mkParams 3 2 2) true); [reflexivity|].
    exists 7. split; [reflexivity | simpl; lia].
  - apply (observer_color_cases (set_cached_red_until_tick (Some 4) st_serving)
             (mkParams 3 2 2) true); [reflexivity|].
    intros (c & Hc & Hle). simpl in Hc, Hle. injection Hc as <-. lia.
Defined.

(** ** Substring test *)

Lemma append_cons (a : Ascii.ascii) (s post : string) :
  String a s +:+ post = String a (s +:+ post).
Proof. reflexivity. Qed.

Lemma prefix_app (s1 s2 : string) :
  String.prefix s1 s2 = true <-> exists post, s2 = s1 +:+ post.
Proof.
  revert s2. induction s1 as [|a s1 IH]; intros [|b s2]; simpl.
  - split; [exists ""; reflexivity | reflexivity].
  - split; [exists (String b s2); reflexivity | reflexivity].
  - split; [discriminate | intros [post H]; discriminate].
  - destruct (Ascii.ascii_dec a b) as [->|Hne].
    + rewrite IH. split; intros [post H]; exists post;
        rewrite append_cons in *; congruence.
    + split; [discriminate|]. intros [post H].
      rewrite append_cons in H. congruence.
Qed.

(** [str_in] is the substring relation. *)
Lemma str_in_spec (needle hay : string) :
  str_in needle hay = true <-> exists pre post, hay = pre +:+ needle +:+ post.
Proof.
  induction hay as [|b hay IH].
  - unfold str_in. rewrite orb_false_r, prefix_app. split.
    + intros [post H]. exists "", post. exact H.
    + intros (pre & post & H).
      destruct pre; [exists post; exact H | discriminate].
  - change (str_in needle (String b hay))
      with (String.prefix needle (String b hay) || str_in needle hay).
    rewrite orb_true_iff, prefix_app, IH. split.
    + intros [[post H]|(pre & post & H)].
      * exists "", post. exact H.
      * exists (String b pre), post. rewrite append_cons. congruence.
    + intros (pre & post & H). destruct pre as [|a pre].
      * left. exists post. exact H.
      * right. exists pre, post. rewrite append_cons in H. congruence.
Qed.

Lemma str_in_permission_denied (r : string) :
  str_in "PERMISSION_DENIED" ("PERMISSION_DENIED(" +:+ r +:+ ")") = true.
Proof. reflexivity. Qed.

(** ** One tick of a run *)

(** The state on which the request of tick [n] is evaluated differs from
    the state left by tick [n-1] only in [tick] and in what the events of
    tick [n] wrote. *)
Lemma tick_step cfg n c d :
  run_upto cfg n = Ok c -> run_upto cfg (S n) = Ok d ->
  exists st tl,
    at_request cfg n = Ok st /\
    apply_events (Z.of_nat n) (events_at cfg (Z.of_nat n))
      (set_tick (Z.of_nat n) (state c)) (timeline_lines c) = Ok (st, tl) /\
    tick st = Z.of_nat n /\
    service_account_revoked st = service_account_revoked (state c) /\
    cached_red_until_tick st = cached_red_until_tick (state c) /\
    consecutive_observed_red st = consecutive_observed_red (state c) /\
    automation_action_tick st = automation_action_tick (state c) /\
    total_requests st = total_requests (state c) /\
    denied_requests st = denied_requests (state c) /\
    revoked_requests st = revoked_requests (state c) /\
    d = serve_tick (parameters cfg) (regions cfg) (Z.of_nat n) st tl (metrics_rows c).
Proof.
  intros Hc Hd. apply run_upto_S_inv in Hd as (c' & st & tl & Hc' & He & Hr & ->).
  rewrite Hc in Hc'. injection Hc' as <-.
  exists st, tl. pose proof (apply_events_engine _ _ _ _ _ _ He) as K.
  unfold engine_fields_kept in K. simpl in K.
  repeat split; tauto.
Qed.

Lemma request_at_eq cfg n st :
  at_request cfg n = Ok st ->
  request_at cfg n = Ok (_service_request st (parameters cfg) (regions cfg)).
Proof. unfold request_at. intros ->. reflexivity. Qed.

(** ** Counters *)

(** C10: on every tick of every run [total_requests] grows by exactly 1,
    [denied_requests] grows by 1 exactly when the reason of the tick's
    request contains PERMISSION_DENIED, and [revoked_requests] grows by 1
    exactly when the reason is SERVICE_ACCOUNT_REVOKED; a
    SERVICE_NOT_STARTED failure moves [total_requests] only.  The reason
    is the one recorded in the metrics row of the tick. *)
Theorem counters_per_tick (cfg : Config) (n : nat) (c d : Run) :
  run_upto cfg n = Ok c -> run_upto cfg (S n) = Ok d ->
  exists ok reason row,
    request_at cfg n = Ok (ok, reason) /\
    metrics_rows d = (metrics_rows c ++ [row])%list /\
    mr_request_result row = reason /\
    total_requests (state d) = total_requests (state c) + 1 /\
    ((exists pre post, reason = pre +:+ "PERMISSION_DENIED" +:+ post) ->
     denied_requests (state d) = denied_requests (state c) + 1) /\
    (~ (exists pre post, reason = pre +:+ "PERMISSION_DENIED" +:+ post) ->
     denied_requests (state d) = denied_requests (state c)) /\
    (reason = "SERVICE_ACCOUNT_REVOKED" ->
     revoked_requests (state d) = revoked_requests (state c) + 1) /\
    (reason <> "SERVICE_ACCOUNT_REVOKED" ->
     revoked_requests (state d) = revoked_requests (state c)) /\
    (reason = "SERVICE_NOT_STARTED" ->
     total_requests (state d) = total_requests (state c) + 1 /\
     denied_requests (state d) = denied_requests (state c) /\
     revoked_requests (state d) = revoked_requests (state c)).
Proof.
  intros Hc Hd.
  destruct (tick_step cfg n c d Hc Hd)
    as (st & tl & Hat & _ & _ & _ & _ & _ & _ & Htot & Hden & Hrvk & ->).
  pose proof (serve_tick_state (parameters cfg) (regions cfg) (Z.of_nat n)
                st tl (metrics_rows c)) as Hst.
  pose proof (serve_tick_rows (parameters cfg) (regions cfg) (Z.of_nat n)
                st tl (metrics_rows c)) as Hrows.
  cbv zeta in Hst, Hrows. rewrite (request_at_eq _ _ _ Hat).
  destruct (_service_request st (parameters cfg) (regions cfg)) as [ok reason].
  cbn [fst snd] in Hst, Hrows.
  eexists ok, reason, _. split; [reflexivity|]. split; [exact Hrows|].
  split; [reflexivity|]. rewrite Hst. simpl. rewrite Htot, Hden, Hrvk.
  split; [reflexivity|].
  assert (Hin : (exists pre post, reason = pre +:+ "PERMISSION_DENIED" +:+ post)
                <-> str_in "PERMISSION_DENIED" reason = true)
    by (symmetry; apply str_in_spec).
  split; [|split; [|split; [|split]]].
  - intros H. apply Hin in H. rewrite H. reflexivity.
  - intros H. destruct (str_in "PERMISSION_DENIED" reason); [|reflexivity].
    exfalso. apply H, Hin. reflexivity.
  - intros ->. reflexivity.
  - intros H. apply String.eqb_neq in H. rewrite H. reflexivity.
  - intros ->. simpl. auto.
Qed.

Lemma counters_per_tick_witness :
  exists c d ok reason row,
    run_upto idle_cfg 1 = Ok c /\ run_upto idle_cfg 2 = Ok d /\
    request_at idle_cfg 1 = Ok (ok, reason) /\
    metrics_rows d = (metrics_rows c ++ [row])%list /\
    mr_request_result row = reason /\
    total_requests (state d) = total_requests (state c) + 1.
Proof.
  destruct (run_upto idle_cfg 1) as [c|] eqn:Hc; [|vm_compute in Hc; discriminate].
  destruct (run_upto idle_cfg 2) as [d|] eqn:Hd; [|vm_compute in Hd; discriminate].
  destruct (counters_per_tick idle_cfg 1 c d Hc Hd)
    as (ok & reason & row & H1 & H2 & H3 & H4 & _).
  exists c, d, ok, reason, row. repeat split; assumption || reflexivity.
Defined.

(** ** Event application *)




Lemma serve_tick_control params rs t st tl rows :
  let d := serve_tick params rs t st tl rows in
  tick (state d) = tick st /\
  role_attached_tick (state d) = role_attached_tick st /\
  required_role (state d) = required_role st /\
  service_account_deployed (state d) = service_account_deployed st /\
  service_account_in_use (state d) = service_account_in_use st /\
  operator_assumption_tick (state d) = operator_assumption_tick st.
Proof.
  cbv zeta. rewrite serve_tick_state. cbv zeta.
  unfold _automation_step, _observer_color.
  branches; simpl; tauto.
Qed.


(** C7 (the code departs from the claim): an attach_required_role event
    whose ["details"] entry is present but null makes event application
    raise [AttributeError], a third raising case beside the two of the
    claim, although the same event without a ["details"] entry is applied
    with the default role; the run of a script with such an event raises
    and no artifact is produced. *)
Theorem attach_null_details_raises (st : State) (t : Z) :
  _apply_event st (mkEvent t "attach_required_role" (DetailsOther "NoneType"))
  = Raise (AttributeError "'NoneType' object has no attribute 'get'") /\
  _apply_event st (mkEvent t "attach_required_role" NoDetails)
  = Ok (set_required_role "unknown_role"
          (set_role_attached_tick (Some (tick st)) st),
        "attach_required_role(unknown_role) control_plane_ack") /\
  run null_details_cfg
  = Raise (AttributeError "'NoneType' object has no attribute 'get'") /\
  main_artifacts null_details_cfg
  = Raise (AttributeError "'NoneType' object has no attribute 'get'").
Proof.
  split; [reflexivity|]. split; [reflexivity|].
  split; vm_compute; reflexivity.
Qed.

(** ** Role attachment *)

Lemma _apply_event_role_attached st ev st' action :
  _apply_event st ev = Ok (st', action) ->
  role_attached_tick st'
  = if String.eqb (ev_event ev) "attach_required_role"
    then Some (tick st) else role_attached_tick st.
Proof.
  unfold _apply_event. cbv zeta. intros H.
  destruct (String.eqb_spec (ev_event ev) "deploy_service_account") as [E1|E1].
  { rewrite E1. inversion H; subst. reflexivity. }
  destruct (String.eqb (ev_event ev) "attach_required_role").
  { apply bind_Ok_inv in H as (role & _ & H). inversion H; subst. reflexivity. }
  repeat match type of H with
    | context [if ?b then _ else _] => destruct b
    end; try discriminate; inversion H; subst; reflexivity.
Qed.

Lemma apply_events_role_attached t evs st tl st' tl' :
  apply_events t evs st tl = Ok (st', tl') ->
  tick st = t ->
  role_attached_tick st'
  = if has_attach evs then Some t else role_attached_tick st.
Proof.
  revert st tl. induction evs as [|ev evs IH]; intros st tl; simpl.
  - intros [= <- _] _. reflexivity.
  - intros H Ht. apply bind_Ok_inv in H as ([st1 a] & H1 & H2).
    pose proof (_apply_event_role_attached _ _ _ _ H1) as Hrat.
    pose proof (_apply_event_engine _ _ _ _ H1) as (Htk & _).
    rewrite (IH _ _ H2) by congruence. rewrite Hrat, Ht.
    destruct (String.eqb _ _), (has_attach evs); reflexivity.
Qed.

(** C8 (amended): once [role_attached_tick] is set, no later event clears
    it, and only a later attach_required_role event changes it, to the
    tick of that event: a tick without such an event leaves the value as
    it is, a tick with one sets it to that tick; event by event, every
    kind but attach_required_role keeps the value. *)
Theorem role_attached_tick_kept (cfg : Config) (n : nat) (c d : Run) (k : Z) :
  run_upto cfg n = Ok c -> run_upto cfg (S n) = Ok d ->
  role_attached_tick (state c) = Some k ->
  (has_attach (events_at cfg (Z.of_nat n)) = false ->
   role_attached_tick (state d) = Some k) /\
  (has_attach (events_at cfg (Z.of_nat n)) = true ->
   role_attached_tick (state d) = Some (Z.of_nat n)) /\
  (forall st ev st' action,
     _apply_event st ev = Ok (st', action) ->
     role_attached_tick st = Some k ->
     (ev_event ev <> "attach_required_role" -> role_attached_tick st' = Some k) /\
     (ev_event ev = "attach_required_role" ->
      role_attached_tick st' = Some (tick st))).
Proof.
  intros Hc Hd Hk.
  destruct (tick_step cfg n c d Hc Hd) as (st & tl & _ & He & _ & _ & _ & _ & _ & _ & _ & _ & ->).
  destruct (serve_tick_control (parameters cfg) (regions cfg) (Z.of_nat n) st tl
              (metrics_rows c)) as (_ & -> & _).
  rewrite (apply_events_role_attached _ _ _ _ _ _ He eq_refl). simpl.
  split; [|split].
  - intros ->. exact Hk.
  - intros ->. reflexivity.
  - intros st0 ev st' action Hev Hst0.
    rewrite (_apply_event_role_attached _ _ _ _ Hev). split.
    + intros Hne. apply String.eqb_neq in Hne. rewrite Hne. exact Hst0.
    + intros ->. reflexivity.
Qed.

Lemma role_attached_tick_kept_witness :
  exists c d,
    run_upto reattach_cfg 2 = Ok c /\ run_upto reattach_cfg 3 = Ok d /\
    role_attached_tick (state c) = Some 1 /\
    role_attached_tick (state d) = Some 1.
Proof.
  destruct (run_upto reattach_cfg 2) as [c|] eqn:Hc;
    [|vm_compute in Hc; discriminate].
  destruct (run_upto reattach_cfg 3) as [d|] eqn:Hd;
    [|vm_compute in Hd; discriminate].
  assert (Hk : role_attached_tick (state c) = Some 1).
  { pose proof Hc as Hc'. vm_compute in Hc'. injection Hc' as <-. reflexivity. }
  exists c, d. split; [reflexivity|]. split; [reflexivity|].
  split; [exact Hk|].
  apply (proj1 (role_attached_tick_kept reattach_cfg 2 c d 1 Hc Hd Hk)).
  vm_compute. reflexivity.
Defined.

(** C8 (as stated) fails: a second attach_required_role event, at tick 1,
    changes [role_attached_tick] from 0 to 1. *)
Lemma role_attached_tick_overwritten :
  (exists c d,
     run_upto reattach_cfg 1 = Ok c /\ run_upto reattach_cfg 2 = Ok d /\
     role_attached_tick (state c) = Some 0 /\
     role_attached_tick (state d) = Some 1) /\
  ~ (forall st ev st' action k,
       _apply_event st ev = Ok (st', action) ->
       role_attached_tick st = Some k -> role_attached_tick st' = Some k).
Proof.
  split.
  - eexists _, _. by_running.
  - intros H.
    specialize (H (set_tick 1 (set_role_attached_tick (Some 0) State_default))
                  (mkEvent 1 "attach_required_role" NoDetails) _ _ 0 eq_refl eq_refl).
    discriminate H.
Qed.

(** ** Automation *)

Lemma _automation_step_revoked st params color :
  service_account_revoked st = true ->
  _automation_step st params color
  = (set_consecutive_observed_red
       (if String.eqb color "RED" then consecutive_observed_red st + 1 else 0) st,
     None).
Proof.
  intros Hrev. unfold _automation_step. cbv zeta.
  destruct (String.eqb color "RED"); simpl; rewrite Hrev; reflexivity.
Qed.

(** What a completed tick does to the automation fields, read off the
    state on which the request was evaluated. *)
Lemma serve_tick_automation params rs t st tl rows :
  let d := state (serve_tick params rs t st tl rows) in
  let obs := snd (_observer_color st params (fst (_service_request st params rs))) in
  let N := automation_trigger_after_ticks params in
  consecutive_observed_red d
  = (if String.eqb obs "RED" then consecutive_observed_red st + 1 else 0) /\
  (service_account_revoked st = true ->
   service_account_revoked d = true /\
   automation_action_tick d = automation_action_tick st) /\
  (service_account_revoked st = false -> N <= consecutive_observed_red d ->
   service_account_revoked d = true /\ automation_action_tick d = Some (tick st)) /\
  (service_account_revoked st = false -> consecutive_observed_red d < N ->
   service_account_revoked d = false /\
   automation_action_tick d = automation_action_tick st).
Proof.
  cbv zeta. rewrite serve_tick_state. cbv zeta.
  destruct (_service_request st params rs) as [ok reason]. cbn [fst snd].
  case_state st. unfold _observer_color, _automation_step. simpl.
  destruct ok, rev; simpl; branches; leb_to_prop;
    repeat split; intros; try reflexivity; try discriminate; try lia.
Qed.

Lemma serve_tick_cache params rs t st tl rows :
  let d := state (serve_tick params rs t st tl rows) in
  cached_red_until_tick d
  = if fst (_service_request st params rs)
    then cached_red_until_tick st
    else Some (tick st + observer_cache_ttl_ticks params).
Proof.
  cbv zeta. rewrite serve_tick_state. cbv zeta.
  destruct (_service_request st params rs) as [ok reason]. cbn [fst snd].
  case_state st. unfold _observer_color, _automation_step. simpl.
  destruct ok; simpl; branches; reflexivity.
Qed.

Section Run.

Variable cfg : Config.

Local Abbreviation N := (automation_trigger_after_ticks (parameters cfg)).

(** Revocation is permanent. *)
Lemma revoked_step n c d :
  run_upto cfg n = Ok c -> run_upto cfg (S n) = Ok d ->
  service_account_revoked (state c) = true ->
  service_account_revoked (state d) = true /\
  automation_action_tick (state d) = automation_action_tick (state c).
Proof.
  intros Hc Hd Hrev.
  destruct (tick_step cfg n c d Hc Hd)
    as (st & tl & _ & _ & _ & Hr & _ & _ & Ha & _ & _ & _ & ->).
  destruct (serve_tick_automation (parameters cfg) (regions cfg) (Z.of_nat n)
              st tl (metrics_rows c)) as (_ & H & _).
  rewrite <- Ha. apply H. congruence.
Qed.

Lemma revoked_mono n m c d :
  run_upto cfg n = Ok c -> run_upto cfg m = Ok d -> (n <= m)%nat ->
  service_account_revoked (state c) = true ->
  service_account_revoked (state d) = true.
Proof.
  intros Hc Hd Hle Hrev. revert d Hd.
  induction Hle as [|m Hle IH]; intros d Hd.
  - congruence.
  - destruct (run_upto_le cfg (S m) m d Hd) as [e He]; [lia|].
    apply (revoked_step m e d He Hd). apply IH, He.
Qed.

(** As long as the account is not revoked, the streak left by a tick is
    below the threshold. *)
Lemma streak_below n d :
  run_upto cfg (S n) = Ok d ->
  service_account_revoked (state d) = false ->
  consecutive_observed_red (state d) < N.
Proof.
  intros Hd Hrev.
  destruct (run_upto_le cfg (S n) n d Hd) as [c Hc]; [lia|].
  destruct (tick_step cfg n c d Hc Hd)
    as (st & tl & _ & _ & _ & Hr & _ & _ & _ & _ & _ & _ & ->).
  destruct (serve_tick_automation (parameters cfg) (regions cfg) (Z.of_nat n)
              st tl (metrics_rows c)) as (_ & H1 & H2 & _).
  destruct (service_account_revoked st) eqn:Hst.
  - destruct (H1 eq_refl). congruence.
  - destruct (Z.lt_ge_cases
                (consecutive_observed_red
                   (state (serve_tick (parameters cfg) (regions cfg)
                             (Z.of_nat n) st tl (metrics_rows c)))) N)
      as [Hlt|Hge]; [exact Hlt|].
    destruct (H2 eq_refl Hge). congruence.
Qed.

(** A revoked account was revoked by a streak that reached the
    threshold. *)
Lemma revoked_by_streak n c :
  run_upto cfg n = Ok c ->
  service_account_revoked (state c) = true ->
  exists m e, (m < n)%nat /\ run_upto cfg (S m) = Ok e /\
              N <= consecutive_observed_red (state e).
Proof.
  revert c. induction n as [|n IH]; intros c Hc Hrev.
  - rewrite run_upto_0 in Hc. injection Hc as <-. discriminate.
  - destruct (run_upto_le cfg (S n) n c Hc) as [b Hb]; [lia|].
    destruct (service_account_revoked (state b)) eqn:Hbrev.
    + destruct (IH b Hb Hbrev) as (m & e & Hm & He & Hs).
      exists m, e. split; [lia | auto].
    + exists n, c. split; [lia|]. split; [exact Hc|].
      destruct (tick_step cfg n b c Hb Hc)
        as (st & tl & _ & _ & _ & Hr & _ & _ & _ & _ & _ & _ & ->).
      destruct (serve_tick_automation (parameters cfg) (regions cfg) (Z.of_nat n)
                  st tl (metrics_rows b)) as (_ & _ & _ & H3).
      apply Z.le_ngt. intros Hlt.
      destruct (H3 ltac:(congruence) Hlt). congruence.
Qed.

End Run.

Lemma streak_below_threshold cfg n c :
  run_upto cfg n = Ok c ->
  service_account_revoked (state c) = false ->
  0 < automation_trigger_after_ticks (parameters cfg) ->
  consecutive_observed_red (state c) < automation_trigger_after_ticks (parameters cfg).
Proof.
  destruct n as [|n]; intros Hc Hrev Hpos.
  - rewrite run_upto_0 in Hc. injection Hc as <-. exact Hpos.
  - apply (streak_below cfg n c Hc Hrev).
Qed.

(** ** The streak counts consecutive RED observations *)

Lemma serve_tick_row_fields params rs t st tl rows :
  let d := serve_tick params rs t st tl rows in
  exists row,
    metrics_rows d = (rows ++ [row])%list /\
    mr_consecutive_observed_red row = consecutive_observed_red (state d) /\
    mr_service_account_revoked row
    = int_of_bool (service_account_revoked (state d)) /\
    mr_role_attached_tick row = role_attached_tick (state d) /\
    consecutive_observed_red (state d)
    = (if String.eqb (mr_observer row) "RED"
       then consecutive_observed_red st + 1 else 0).
Proof.
  cbv zeta. unfold serve_tick.
  destruct (_service_request st params rs) as [ok reason].
  case_state st.
  destruct (str_in _ reason), (String.eqb reason _), ok;
    unfold _observer_color; simpl; branches;
    unfold _automation_step; simpl; branches;
    (eexists; split; [reflexivity|]; simpl; auto).
Qed.

(** Each row records the state its tick leaves. *)
Lemma row_records_state cfg n c d :
  run_upto cfg n = Ok c -> run_upto cfg (S n) = Ok d ->
  exists row,
    metrics_rows d = (metrics_rows c ++ [row])%list /\
    mr_consecutive_observed_red row = consecutive_observed_red (state d) /\
    mr_service_account_revoked row
    = int_of_bool (service_account_revoked (state d)) /\
    mr_role_attached_tick row = role_attached_tick (state d) /\
    consecutive_observed_red (state d)
    = (if String.eqb (mr_observer row) "RED"
       then consecutive_observed_red (state c) + 1 else 0).
Proof.
  intros Hc Hd.
  destruct (tick_step cfg n c d Hc Hd)
    as (st & tl & _ & _ & _ & _ & _ & Hs & _ & _ & _ & _ & ->).
  rewrite <- Hs. apply serve_tick_row_fields.
Qed.

Lemma trailing_red_snoc (obs : list string) (o : string) :
  trailing_red (obs ++ [o])
  = if String.eqb o "RED" then S (trailing_red obs) else 0%nat.
Proof. unfold trailing_red. rewrite rev_unit. reflexivity. Qed.

Lemma streak_trailing_red cfg n c :
  run_upto cfg n = Ok c ->
  consecutive_observed_red (state c)
  = Z.of_nat (trailing_red (map mr_observer (metrics_rows c))).
Proof.
  revert c. induction n as [|n IH]; intros c Hc.
  - rewrite run_upto_0 in Hc. injection Hc as <-. reflexivity.
  - destruct (run_upto_le cfg (S n) n c Hc) as [b Hb]; [lia|].
    destruct (row_records_state cfg n b c Hb Hc) as (row & -> & _ & _ & _ & ->).
    rewrite map_app. simpl map. rewrite trailing_red_snoc, (IH b Hb).
    destruct (String.eqb _ "RED"); lia.
Qed.

(** The observer column has one entry per completed tick. *)
Lemma observer_column_length cfg n c :
  run_upto cfg n = Ok c -> length (map mr_observer (metrics_rows c)) = n.
Proof.
  revert c. induction n as [|n IH]; intros c Hc.
  - rewrite run_upto_0 in Hc. injection Hc as <-. reflexivity.
  - destruct (run_upto_le cfg (S n) n c Hc) as [b Hb]; [lia|].
    destruct (row_records_state cfg n b c Hb Hc) as (row & -> & _).
    rewrite map_app, length_app, (IH b Hb). simpl. lia.
Qed.

(** C4: with [automation_trigger_after_ticks = N], the automation revokes
    the service account during tick [n] exactly when the streak left by
    tick [n] is the first one to reach [N] (no earlier tick left a streak
    of [N] or more); it then stamps [automation_action_tick] with [n], and
    for a positive [N] the streak is exactly [N].  Once revoked, a tick
    keeps the account revoked and the stamp as it is, so a run revokes at
    most once, and the automation step on a revoked state changes nothing
    but the streak counter and reports no action.  The streak is the
    number of consecutive RED observations: on every state, revoked or
    not, tick [n] adds one row whose observer colour sets the streak to
    the previous one plus 1 when it is RED and to 0 otherwise, so after
    any number of ticks the streak is the length of the run of RED
    entries that ends the observer column; hence revocation happens
    during tick [n] exactly when the observer column up to tick [n] is
    the first to end in [N] or more RED entries. *)
Theorem automation_threshold (cfg : Config) (n : nat) (c d : Run) :
  run_upto cfg n = Ok c -> run_upto cfg (S n) = Ok d ->
  let N := automation_trigger_after_ticks (parameters cfg) in
  ((service_account_revoked (state c) = false /\
    service_account_revoked (state d) = true) <->
   (N <= consecutive_observed_red (state d) /\
    forall m e, (m < n)%nat -> run_upto cfg (S m) = Ok e ->
                consecutive_observed_red (state e) < N)) /\
  (service_account_revoked (state c) = false ->
   service_account_revoked (state d) = true ->
   automation_action_tick (state d) = Some (Z.of_nat n) /\
   (0 < N -> consecutive_observed_red (state d) = N)) /\
  (service_account_revoked (state c) = true ->
   service_account_revoked (state d) = true /\
   automation_action_tick (state d) = automation_action_tick (state c)) /\
  (forall n' c' d',
     run_upto cfg n' = Ok c' -> run_upto cfg (S n') = Ok d' ->
     service_account_revoked (state c') = false ->
     service_account_revoked (state d') = true ->
     service_account_revoked (state c) = false ->
     service_account_revoked (state d) = true ->
     n' = n) /\
  (forall st color,
     service_account_revoked st = true ->
     _automation_step st (parameters cfg) color
     = (set_consecutive_observed_red
          (if String.eqb color "RED" then consecutive_observed_red st + 1 else 0)
          st, None)) /\
  (exists row,
     metrics_rows d = (metrics_rows c ++ [row])%list /\
     consecutive_observed_red (state d)
     = (if String.eqb (mr_observer row) "RED"
        then consecutive_observed_red (state c) + 1 else 0)) /\
  (forall m e,
     run_upto cfg m = Ok e ->
     length (map mr_observer (metrics_rows e)) = m /\
     consecutive_observed_red (state e)
     = Z.of_nat (trailing_red (map mr_observer (metrics_rows e)))) /\
  ((service_account_revoked (state c) = false /\
    service_account_revoked (state d) = true) <->
   (N <= Z.of_nat (trailing_red (map mr_observer (metrics_rows d))) /\
    forall m e, (m < n)%nat -> run_upto cfg (S m) = Ok e ->
                Z.of_nat (trailing_red (map mr_observer (metrics_rows e))) < N)).
Proof.
  intros Hc Hd N.
  destruct (tick_step cfg n c d Hc Hd)
    as (st & tl & _ & _ & Htk & Hr & _ & Hs & Ha & _ & _ & _ & Hdeq).
  pose proof (serve_tick_automation (parameters cfg) (regions cfg) (Z.of_nat n)
                st tl (metrics_rows c)) as Haut.
  cbv zeta in Haut. rewrite <- Hdeq in Haut. fold N in Haut.
  destruct Haut as (Hstreak & H1 & H2 & H3).
  assert (Hfire : service_account_revoked (state c) = false ->
                  service_account_revoked (state d) = true ->
                  N <= consecutive_observed_red (state d)).
  { intros Hcf Hdt. apply Z.le_ngt. intros Hlt.
    destruct (H3 ltac:(congruence) Hlt). congruence. }
  assert (Hiff : (service_account_revoked (state c) = false /\
                  service_account_revoked (state d) = true) <->
                 (N <= consecutive_observed_red (state d) /\
                  forall m e, (m < n)%nat -> run_upto cfg (S m) = Ok e ->
                              consecutive_observed_red (state e) < N)).
  { split.
    - intros [Hcf Hdt]. split; [auto|].
      intros m e Hm He. apply (streak_below cfg m e He).
      destruct (service_account_revoked (state e)) eqn:Hrev; [|reflexivity].
      rewrite (revoked_mono cfg (S m) n e c He Hc ltac:(lia) Hrev) in Hcf.
      discriminate.
    - intros [Hge Hbefore].
      assert (Hcf : service_account_revoked (state c) = false).
      { destruct (service_account_revoked (state c)) eqn:Hrev; [|reflexivity].
        destruct (revoked_by_streak cfg n c Hc Hrev) as (m & e & Hm & He & Hs').
        specialize (Hbefore m e Hm He). fold N in Hs'. lia. }
      split; [exact Hcf|]. apply H2; [congruence | exact Hge]. }
  split; [exact Hiff|].
  split; [|split; [|split; [|split; [|split; [|split]]]]].
  - intros Hcf Hdt. pose proof (Hfire Hcf Hdt) as Hge.
    destruct (H2 ltac:(congruence) Hge) as [_ Hstamp].
    split; [congruence|]. intros Hpos.
    pose proof (streak_below_threshold cfg n c Hc Hcf Hpos) as Hlt. fold N in Hlt.
    rewrite Hstreak in *. rewrite Hs in *.
    destruct (String.eqb _ "RED"); lia.
  - intros Hct. rewrite <- Ha. apply H1. congruence.
  - intros n' c' d' Hc' Hd' Hc'f Hd't Hcf Hdt.
    destruct (Nat.lt_trichotomy n' n) as [Hlt|[Heq|Hgt]]; [|exact Heq|].
    + rewrite (revoked_mono cfg (S n') n d' c Hd' Hc ltac:(lia) Hd't) in Hcf.
      discriminate.
    + rewrite (revoked_mono cfg (S n) n' d c' Hd Hc' ltac:(lia) Hdt) in Hc'f.
      discriminate.
  - intros st0 color Hrev. apply _automation_step_revoked, Hrev.
  - destruct (row_records_state cfg n c d Hc Hd) as (row & Hrows & _ & _ & _ & Hrow).
    exists row. split; assumption.
  - intros m e He. split; [apply (observer_column_length cfg m e He)|].
    apply (streak_trailing_red cfg m e He).
  - rewrite Hiff, <- (streak_trailing_red cfg (S n) d Hd).
    split; intros [Hge Hbefore]; (split; [exact Hge|]); intros m e Hm He;
      specialize (Hbefore m e Hm He);
      rewrite (streak_trailing_red cfg (S m) e He) in *; exact Hbefore.
Qed.

Lemma automation_threshold_witness :
  (exists c d,
     run_upto example_cfg 1 = Ok c /\ run_upto example_cfg 2 = Ok d /\
     service_account_revoked (state c) = false /\
     service_account_revoked (state d) = true /\
     automation_action_tick (state d) = Some 1 /\
     consecutive_observed_red (state d) = 2) /\
  (exists c d,
     run_upto interrupted_cfg 2 = Ok c /\ run_upto interrupted_cfg 3 = Ok d /\
     map mr_observer (metrics_rows d) = ["RED"; "GREEN"; "RED"] /\
     consecutive_observed_red (state d) = 1 /\
     service_account_revoked (state d) = false).
Proof.
  split.
  - destruct (run_upto example_cfg 1) as [c|] eqn:Hc;
      [|vm_compute in Hc; discriminate].
    destruct (run_upto example_cfg 2) as [d|] eqn:Hd;
      [|vm_compute in Hd; discriminate].
    assert (Hcf : service_account_revoked (state c) = false).
    { pose proof Hc as Hc'. vm_compute in Hc'. injection Hc' as <-. reflexivity. }
    assert (Hdt : service_account_revoked (state d) = true).
    { pose proof Hd as Hd'. vm_compute in Hd'. injection Hd' as <-. reflexivity. }
    destruct (automation_threshold example_cfg 1 c d Hc Hd) as (_ & H & _).
    destruct (H Hcf Hdt) as [Hstamp Hstreak].
    exists c, d. repeat split; try assumption.
    apply Hstreak. reflexivity.
  - destruct (run_upto interrupted_cfg 2) as [c|] eqn:Hc;
      [|vm_compute in Hc; discriminate].
    destruct (run_upto interrupted_cfg 3) as [d|] eqn:Hd;
      [|vm_compute in Hd; discriminate].
    assert (Hobs : map mr_observer (metrics_rows d) = ["RED"; "GREEN"; "RED"]).
    { pose proof Hd as Hd'. vm_compute in Hd'. injection Hd' as <-. reflexivity. }
    destruct (automation_threshold interrupted_cfg 2 c d Hc Hd)
      as (_ & _ & _ & _ & _ & _ & Hcol & Hiff).
    destruct (Hcol 3%nat d Hd) as [_ Hstreak]. rewrite Hobs in Hstreak, Hiff.
    exists c, d. split; [reflexivity|]. split; [reflexivity|].
    split; [exact Hobs|]. split; [exact Hstreak|].
    destruct (service_account_revoked (state d)) eqn:Hrev; [|reflexivity].
    assert (Hcf : service_account_revoked (state c) = false).
    { pose proof Hc as Hc'. vm_compute in Hc'. injection Hc' as <-. reflexivity. }
    destruct (proj1 Hiff (conj Hcf eq_refl)) as [Hge _].
    vm_compute in Hge. exfalso. apply Hge. reflexivity.
Defined.

(** ** Revocation permanence *)

(** C1 (amended): once [service_account_revoked] has become true during
    tick [T] (the automation step runs after the request of its tick),
    every request evaluated at a tick [t > T] fails.  When the service
    account is in use at that tick the reason is SERVICE_ACCOUNT_REVOKED
    and [revoked_requests] grows by exactly 1 during the tick; when it is
    not in use the reason is SERVICE_NOT_STARTED and [revoked_requests]
    stays as it is. *)
Theorem revocation_permanence (cfg : Config) (T t : nat) (c d : Run) :
  revoked_at cfg T -> (T < t)%nat ->
  run_upto cfg t = Ok c -> run_upto cfg (S t) = Ok d ->
  exists st reason,
    at_request cfg t = Ok st /\
    service_account_revoked st = true /\
    request_at cfg t = Ok (false, reason) /\
    (service_account_in_use st = true ->
     reason = "SERVICE_ACCOUNT_REVOKED" /\
     revoked_requests (state d) = revoked_requests (state c) + 1) /\
    (service_account_in_use st = false ->
     reason = "SERVICE_NOT_STARTED" /\
     revoked_requests (state d) = revoked_requests (state c)).
Proof.
  intros (a & b & Ha & _ & Hb & Hbrev) HTt Hc Hd.
  pose proof (revoked_mono cfg (S T) t b c Hb Hc ltac:(lia) Hbrev) as Hcrev.
  destruct (tick_step cfg t c d Hc Hd)
    as (st & tl & Hat & _ & _ & Hr & _ & _ & _ & _ & _ & Hrvk & ->).
  pose proof (serve_tick_state (parameters cfg) (regions cfg) (Z.of_nat t)
                st tl (metrics_rows c)) as Hst.
  cbv zeta in Hst. rewrite Hst, (request_at_eq _ _ _ Hat). clear Hst.
  assert (Hsrev : service_account_revoked st = true) by congruence.
  unfold _service_request. rewrite Hsrev.
  destruct (service_account_in_use st) eqn:Huse; simpl.
  - exists st, "SERVICE_ACCOUNT_REVOKED". rewrite Hrvk.
    split; [exact Hat|]. split; [exact Hsrev|]. split; [reflexivity|].
    split; [intros _; split; reflexivity | congruence].
  - exists st, "SERVICE_NOT_STARTED". rewrite Hrvk.
    split; [exact Hat|]. split; [exact Hsrev|]. split; [reflexivity|].
    split; [congruence | intros _; split; reflexivity].
Qed.

Lemma revoked_at_example : revoked_at example_cfg 1.
Proof. eexists _, _. by_running. Qed.

Lemma revocation_permanence_witness :
  exists c d st,
    run_upto example_cfg 2 = Ok c /\ run_upto example_cfg 3 = Ok d /\
    at_request example_cfg 2 = Ok st /\
    service_account_in_use st = true /\
    request_at example_cfg 2 = Ok (false, "SERVICE_ACCOUNT_REVOKED") /\
    revoked_requests (state d) = revoked_requests (state c) + 1.
Proof.
  destruct (run_upto example_cfg 2) as [c|] eqn:Hc;
    [|vm_compute in Hc; discriminate].
  destruct (run_upto example_cfg 3) as [d|] eqn:Hd;
    [|vm_compute in Hd; discriminate].
  destruct (revocation_permanence example_cfg 1 2 c d revoked_at_example
              ltac:(lia) Hc Hd) as (st & reason & Hat & _ & Hreq & Huse & _).
  assert (Hin : service_account_in_use st = true).
  { pose proof Hat as Hat'. vm_compute in Hat'. injection Hat' as <-. reflexivity. }
  destruct (Huse Hin) as [-> Hcount].
  exists c, d, st. repeat split; assumption.
Defined.

(** C1 (as stated) fails twice.  In the example scenario the account is
    revoked during tick 1, but the request of tick 1 was evaluated before
    the automation step: it reports PERMISSION_DENIED and leaves
    [revoked_requests] at 0.  In the scenario without events the account
    is revoked during tick 1 as well, and the later requests report
    SERVICE_NOT_STARTED, which is tested first. *)
Lemma revocation_not_from_same_tick :
  (revoked_at example_cfg 1 /\
   request_at example_cfg 1 = Ok (false, "PERMISSION_DENIED(us-east)") /\
   exists c d, run_upto example_cfg 1 = Ok c /\ run_upto example_cfg 2 = Ok d /\
               revoked_requests (state c) = 0 /\ revoked_requests (state d) = 0) /\
  (revoked_at idle_cfg 1 /\
   request_at idle_cfg 2 = Ok (false, "SERVICE_NOT_STARTED") /\
   exists c d, run_upto idle_cfg 2 = Ok c /\ run_upto idle_cfg 3 = Ok d /\
               revoked_requests (state c) = 0 /\ revoked_requests (state d) = 0) /\
  ~ (forall cfg T t reason,
       revoked_at cfg T -> (T <= t)%nat ->
       request_at cfg t = Ok (false, reason) ->
       reason = "SERVICE_ACCOUNT_REVOKED").
Proof.
  split; [|split].
  - split; [exact revoked_at_example|]. split; [vm_compute; reflexivity|].
    eexists _, _. by_running.
  - split; [eexists _, _; by_running|].
    split; [vm_compute; reflexivity|].
    eexists _, _. by_running.
  - intros H.
    specialize (H example_cfg 1%nat 1%nat "PERMISSION_DENIED(us-east)"
                  revoked_at_example ltac:(lia) ltac:(vm_compute; reflexivity)).
    discriminate H.
Qed.

(** ** Metrics rows *)

Lemma rows_step cfg n c d :
  run_upto cfg n = Ok c -> run_upto cfg (S n) = Ok d ->
  exists st,
    at_request cfg n = Ok st /\
    tick st = Z.of_nat n /\
    cached_red_until_tick st = cached_red_until_tick (state c) /\
    let req := _service_request st (parameters cfg) (regions cfg) in
    let oc := _observer_color st (parameters cfg) (fst req) in
    cached_red_until_tick (state d)
    = (if fst req then cached_red_until_tick st
       else Some (Z.of_nat n + observer_cache_ttl_ticks (parameters cfg))) /\
    exists row,
      metrics_rows d = (metrics_rows c ++ [row])%list /\
      mr_tick row = Z.of_nat n /\
      mr_request_result row = snd req /\
      mr_observer row = snd oc.
Proof.
  intros Hc Hd.
  destruct (tick_step cfg n c d Hc Hd)
    as (st & tl & Hat & _ & Htk & _ & Hcache & _ & _ & _ & _ & _ & ->).
  exists st. split; [exact Hat|]. split; [exact Htk|]. split; [exact Hcache|].
  cbv zeta. rewrite serve_tick_cache, serve_tick_rows, Htk. cbv zeta.
  split; [reflexivity|]. eexists. split; [reflexivity|]. simpl. auto.
Qed.

Lemma rows_length cfg n c :
  run_upto cfg n = Ok c -> length (metrics_rows c) = n.
Proof.
  revert c. induction n as [|n IH]; intros c Hc.
  - rewrite run_upto_0 in Hc. injection Hc as <-. reflexivity.
  - destruct (run_upto_le cfg (S n) n c Hc) as [b Hb]; [lia|].
    destruct (rows_step cfg n b c Hb Hc) as (_ & _ & _ & _ & _ & row & -> & _).
    rewrite length_app, (IH b Hb). simpl. lia.
Qed.

Lemma rows_prefix cfg m n e c :
  run_upto cfg m = Ok e -> run_upto cfg n = Ok c -> (m <= n)%nat ->
  exists rest, metrics_rows c = (metrics_rows e ++ rest)%list.
Proof.
  intros He Hc Hle. revert c Hc. induction Hle as [|n Hle IH]; intros c Hc.
  - exists []. rewrite app_nil_r. congruence.
  - destruct (run_upto_le cfg (S n) n c Hc) as [b Hb]; [lia|].
    destruct (IH b Hb) as [rest Hrest].
    destruct (rows_step cfg n b c Hb Hc) as (_ & _ & _ & _ & _ & row & -> & _).
    exists (rest ++ [row])%list. rewrite Hrest, app_assoc. reflexivity.
Qed.

(** Row [n] of a run is the row appended by tick [n]. *)
Lemma row_of_tick cfg M r n row :
  run_upto cfg M = Ok r -> metrics_rows r !! n = Some row ->
  exists c d,
    run_upto cfg n = Ok c /\ run_upto cfg (S n) = Ok d /\
    metrics_rows d = (metrics_rows c ++ [row])%list.
Proof.
  intros Hr Hrow.
  pose proof (lookup_lt_Some _ _ _ Hrow) as Hlt.
  rewrite (rows_length cfg M r Hr) in Hlt.
  destruct (run_upto_le cfg M (S n) r Hr) as [d Hd]; [lia|].
  destruct (run_upto_le cfg (S n) n d Hd) as [c Hc]; [lia|].
  exists c, d. split; [exact Hc|]. split; [exact Hd|].
  destruct (rows_step cfg n c d Hc Hd) as (_ & _ & _ & _ & _ & row' & Hrows & _).
  destruct (rows_prefix cfg (S n) M d r Hd Hr) as [rest Hrest]; [lia|].
  rewrite Hrest, Hrows, <- app_assoc in Hrow. simpl in Hrow.
  rewrite list_lookup_middle in Hrow by (symmetry; apply (rows_length cfg n c Hc)).
  congruence.
Qed.

Lemma run_rows cfg tl rows sm :
  run cfg = Ok (tl, rows, sm) ->
  exists r, run_upto cfg (Z.to_nat (max_tick cfg + 1)) = Ok r /\
            rows = metrics_rows r /\ sm = summarise cfg (state r).
Proof.
  rewrite run_unfold. intros H. apply bind_Ok_inv in H as (r & Hr & H).
  injection H as <- <- <-. eauto.
Qed.

Lemma _service_request_ok_eqb st params rs :
  fst (_service_request st params rs)
  = String.eqb (snd (_service_request st params rs)) "OK".
Proof.
  pose proof (_service_request_ok_iff st params rs) as H.
  destruct (String.eqb_spec (snd (_service_request st params rs)) "OK") as [E|E].
  - apply H, E.
  - destruct (fst (_service_request st params rs)); [|reflexivity].
    exfalso. apply E, H. reflexivity.
Qed.

(** What row [n] of a run says about tick [n]: the observer colour is the
    one computed from the request outcome, and the cache window is re-armed
    exactly when the request failed. *)
Lemma row_facts cfg M r n row :
  run_upto cfg M = Ok r -> metrics_rows r !! n = Some row ->
  exists c d st,
    run_upto cfg n = Ok c /\ run_upto cfg (S n) = Ok d /\
    tick st = Z.of_nat n /\
    cached_red_until_tick st = cached_red_until_tick (state c) /\
    cached_red_until_tick (state d)
    = (if String.eqb (mr_request_result row) "OK"
       then cached_red_until_tick (state c)
       else Some (Z.of_nat n + observer_cache_ttl_ticks (parameters cfg))) /\
    mr_observer row
    = snd (_observer_color st (parameters cfg)
             (String.eqb (mr_request_result row) "OK")).
Proof.
  intros Hr Hrow.
  destruct (row_of_tick cfg M r n row Hr Hrow) as (c & d & Hc & Hd & Hrows).
  destruct (rows_step cfg n c d Hc Hd)
    as (st & _ & Htk & Hcache & Hd_cache & row' & Hrows' & _ & Hres & Hobs).
  rewrite Hrows in Hrows'. apply app_inj_tail in Hrows' as [_ <-].
  exists c, d, st. rewrite Hres, <- _service_request_ok_eqb, <- Hcache.
  auto 10.
Qed.

(** After a failed request at tick [T], the cache window stays armed at
    [T + K] for as long as the requests succeed. *)
Lemma cache_armed cfg M r (T : nat) rowT :
  run_upto cfg M = Ok r -> metrics_rows r !! T = Some rowT ->
  mr_request_result rowT <> "OK" ->
  forall j e,
    (forall u ru, (T < u < T + 1 + j)%nat -> metrics_rows r !! u = Some ru ->
                  mr_request_result ru = "OK") ->
    (T + 1 + j <= M)%nat ->
    run_upto cfg (T + 1 + j) = Ok e ->
    cached_red_until_tick (state e)
    = Some (Z.of_nat T + observer_cache_ttl_ticks (parameters cfg)).
Proof.
  intros Hr HrowT Hfail. induction j as [|j IH]; intros e Hok Hle He.
  - destruct (row_facts cfg M r T rowT Hr HrowT)
      as (c & d & st & Hc & Hd & _ & _ & Hcache & _).
    replace (T + 1 + 0)%nat with (S T) in He by lia.
    rewrite Hd in He. injection He as <-. rewrite Hcache.
    apply String.eqb_neq in Hfail. rewrite Hfail. reflexivity.
  - assert (Hlt : (T + 1 + j < length (metrics_rows r))%nat)
      by (rewrite (rows_length cfg M r Hr); lia).
    apply lookup_lt_is_Some_2 in Hlt as [ru Hru].
    destruct (row_facts cfg M r (T + 1 + j) ru Hr Hru)
      as (c & d & st & Hc & Hd & _ & _ & Hcache & _).
    replace (T + 1 + S j)%nat with (S (T + 1 + j)) in He by lia.
    rewrite Hd in He. injection He as <-. rewrite Hcache.
    rewrite (Hok (T + 1 + j)%nat ru ltac:(lia) Hru). simpl.
    apply (IH c); [|lia|exact Hc].
    intros u ru' Hu. apply Hok. lia.
Qed.

(** ** Cache masks recovery *)

(** C6 (amended): with [observer_cache_ttl_ticks = K], if the request
    fails at tick [T] (the observer then reports RED and arms the cache)
    and the requests of all ticks in [(T, t]] succeed, the observer reports
    RED at tick [t] when [t <= T + K] and GREEN when [t > T + K]. *)
Theorem cache_masks_recovery
    (cfg : Config) (timeline : list string) (rows : list MetricsRow)
    (sm : Summary) (T t : nat) (rowT row : MetricsRow) :
  run cfg = Ok (timeline, rows, sm) ->
  rows !! T = Some rowT -> mr_request_result rowT <> "OK" ->
  (T < t)%nat ->
  (forall u ru, (T < u <= t)%nat -> rows !! u = Some ru ->
                mr_request_result ru = "OK") ->
  rows !! t = Some row ->
  let K := observer_cache_ttl_ticks (parameters cfg) in
  mr_observer rowT = "RED" /\
  (Z.of_nat t <= Z.of_nat T + K -> mr_observer row = "RED") /\
  (Z.of_nat T + K < Z.of_nat t -> mr_observer row = "GREEN").
Proof.
  intros Hrun HrowT Hfail HTt Hok Hrow K.
  apply run_rows in Hrun as (r & Hr & -> & _).
  set (M := Z.to_nat (max_tick cfg + 1)) in *.
  split.
  - destruct (row_facts cfg M r T rowT Hr HrowT)
      as (_ & _ & st & _ & _ & _ & _ & _ & ->).
    apply String.eqb_neq in Hfail. rewrite Hfail. reflexivity.
  - destruct (row_facts cfg M r t row Hr Hrow)
      as (c & d & st & Hc & Hd & Htk & Hcache & _ & ->).
    rewrite (Hok t row ltac:(lia) Hrow). simpl.
    assert (Harmed : cached_red_until_tick st = Some (Z.of_nat T + K)).
    { rewrite Hcache.
      pose proof (lookup_lt_Some _ _ _ Hrow) as Hlt.
      rewrite (rows_length cfg M r Hr) in Hlt.
      apply (cache_armed cfg M r T rowT Hr HrowT Hfail (t - T - 1) c).
      - intros u ru Hu. apply Hok. lia.
      - lia.
      - replace (T + 1 + (t - T - 1))%nat with t by lia. exact Hc. }
    unfold _observer_color. simpl. rewrite Harmed, Htk.
    destruct (Z.leb_spec (Z.of_nat t) (Z.of_nat T + K)); simpl;
      split; intros; try reflexivity; lia.
Qed.

Lemma cache_masks_recovery_witness :
  exists timeline rows sm row0 row2 row3,
    run recovery_cfg = Ok (timeline, rows, sm) /\
    rows !! 0%nat = Some row0 /\ mr_request_result row0 = "PERMISSION_DENIED(us-east)" /\
    rows !! 2%nat = Some row2 /\ rows !! 3%nat = Some row3 /\
    mr_observer row0 = "RED" /\ mr_observer row2 = "RED" /\
    mr_observer row3 = "GREEN".
Proof.
  destruct (run recovery_cfg) as [[[timeline rows] sm]|] eqn:Hrun;
    [|vm_compute in Hrun; discriminate].
  assert (Hrows :
    map (fun r => (mr_request_result r, mr_observer r)) rows
    = [("PERMISSION_DENIED(us-east)", "RED"); ("OK", "RED"); ("OK", "RED");
       ("OK", "GREEN"); ("OK", "GREEN"); ("OK", "GREEN")]).
  { pose proof Hrun as H. vm_compute in H. injection H as _ <- _. reflexivity. }
  destruct rows as [|row0 [|row1 [|row2 [|row3 [|row4 [|row5 [|row6 rows]]]]]]];
    try discriminate Hrows.
  injection Hrows as H0 _ H1 _ H2 _ H3 _ _ _ _ _.
  assert (Hok : forall t, (0 < t <= 3)%nat ->
                forall u ru, (0 < u <= t)%nat ->
                  [row0; row1; row2; row3; row4; row5] !! u = Some ru ->
                  mr_request_result ru = "OK").
  { intros t Ht [|[|[|[|u]]]] ru Hu Hru; try lia;
      injection Hru as <-; assumption. }
  destruct (cache_masks_recovery recovery_cfg timeline
              [row0; row1; row2; row3; row4; row5] sm 0 2 row0 row2
              Hrun eq_refl ltac:(rewrite H0; discriminate) ltac:(lia)
              (Hok 2%nat ltac:(lia)) eq_refl) as (Hred0 & Hred2 & _).
  destruct (cache_masks_recovery recovery_cfg timeline
              [row0; row1; row2; row3; row4; row5] sm 0 3 row0 row3
              Hrun eq_refl ltac:(rewrite H0; discriminate) ltac:(lia)
              (Hok 3%nat ltac:(lia)) eq_refl) as (_ & _ & Hgreen3).
  exists timeline, [row0; row1; row2; row3; row4; row5], sm, row0, row2, row3.
  split; [reflexivity|]. split; [reflexivity|]. split; [exact H0|].
  split; [reflexivity|]. split; [reflexivity|]. split; [exact Hred0|].
  split; [apply Hred2; simpl; lia | apply Hgreen3; simpl; lia].
Defined.

(** C6 (as stated) fails when the RED of tick [T] is itself a cached one.
    In the recovery scenario ([K = 2]) the request fails at tick 0 only;
    the observer still reports RED at tick 1, the requests of ticks 2 and
    3 succeed, and the observer reports GREEN at tick 3 = T + K. *)
Lemma cached_red_does_not_rearm :
  (exists timeline rows sm,
     run recovery_cfg = Ok (timeline, rows, sm) /\
     map (fun r => (mr_tick r, mr_request_result r, mr_observer r)) rows
     = [(0, "PERMISSION_DENIED(us-east)", "RED"); (1, "OK", "RED");
        (2, "OK", "RED"); (3, "OK", "GREEN"); (4, "OK", "GREEN");
        (5, "OK", "GREEN")]) /\
  ~ (forall timeline rows sm (T t : nat) rowT row,
       run recovery_cfg = Ok (timeline, rows, sm) ->
       rows !! T = Some rowT -> mr_observer rowT = "RED" ->
       (forall u ru, (T < u)%nat -> Z.of_nat u <= Z.of_nat T + 2 ->
                     rows !! u = Some ru -> mr_request_result ru = "OK") ->
       (T < t)%nat -> Z.of_nat t <= Z.of_nat T + 2 ->
       rows !! t = Some row -> mr_observer row = "RED").
Proof.
  split.
  - eexists _, _, _. by_running.
  - intros H.
    destruct (run recovery_cfg) as [[[timeline rows] sm]|] eqn:Hrun;
      vm_compute in Hrun; [injection Hrun as <- <- <- | discriminate].
    specialize (H _ _ _ 1%nat 3%nat
                  (mkMetricsRow 1 "OK" "RED" 2 0 (Some 0))
                  (mkMetricsRow 3 "OK" "GREEN" 0 0 (Some 0))
                  eq_refl eq_refl eq_refl).
    assert (Hgreen : "GREEN" = "RED"); [|discriminate Hgreen].
    apply H; [|lia|lia|reflexivity].
    intros [|[|[|[|u]]]] ru Hu Hle Hru; try lia;
      injection Hru as <-; reflexivity.
Qed.

(** ** The end-to-end scenario *)

(** C2 (amended): in the example scenario the requests of ticks 0 and 1
    report PERMISSION_DENIED(us-east) with observer RED; the streak
    reaches 2 at tick 1 and the automation revokes the service account at
    tick 1; every tick from 2 on reports SERVICE_ACCOUNT_REVOKED and
    RED. *)
Theorem example_scenario :
  exists timeline rows sm,
    run example_cfg = Ok (timeline, rows, sm) /\
    map (fun r => (mr_tick r, mr_request_result r, mr_observer r)) rows
    = [(0, "PERMISSION_DENIED(us-east)", "RED");
       (1, "PERMISSION_DENIED(us-east)", "RED");
       (2, "SERVICE_ACCOUNT_REVOKED", "RED");
       (3, "SERVICE_ACCOUNT_REVOKED", "RED");
       (4, "SERVICE_ACCOUNT_REVOKED", "RED");
       (5, "SERVICE_ACCOUNT_REVOKED", "RED");
       (6, "SERVICE_ACCOUNT_REVOKED", "RED");
       (7, "SERVICE_ACCOUNT_REVOKED", "RED");
       (8, "SERVICE_ACCOUNT_REVOKED", "RED");
       (9, "SERVICE_ACCOUNT_REVOKED", "RED");
       (10, "SERVICE_ACCOUNT_REVOKED", "RED")] /\
    map mr_consecutive_observed_red rows = [1; 2; 3; 4; 5; 6; 7; 8; 9; 10; 11] /\
    map mr_service_account_revoked rows = [0; 1; 1; 1; 1; 1; 1; 1; 1; 1; 1] /\
    sm_automation_action_tick sm = Some 1 /\
    sm_denied_requests sm = 2 /\ sm_revoked_requests sm = 9.
Proof. eexists _, _, _. by_running. Qed.

(** C2 (as stated) fails: the request of tick 2 does not report
    PERMISSION_DENIED(us-east), and the automation does not revoke at
    tick 2; two consecutive RED observations are complete at tick 1. *)
Lemma example_scenario_not_tick_2 :
  ~ (exists timeline rows sm row,
       run example_cfg = Ok (timeline, rows, sm) /\
       rows !! 2%nat = Some row /\
       mr_request_result row = "PERMISSION_DENIED(us-east)") /\
  ~ (exists timeline rows sm,
       run example_cfg = Ok (timeline, rows, sm) /\
       sm_automation_action_tick sm = Some 2) /\
  ~ revoked_at example_cfg 2.
Proof.
  split; [|split].
  - intros (timeline & rows & sm & row & Hrun & Hrow & Hres).
    vm_compute in Hrun. injection Hrun as <- <- <-.
    injection Hrow as <-. discriminate Hres.
  - intros (timeline & rows & sm & Hrun & Hstamp).
    vm_compute in Hrun. injection Hrun as <- <- <-. discriminate Hstamp.
  - intros (a & b & Ha & Hrev & _).
    vm_compute in Ha. injection Ha as <-. discriminate Hrev.
Qed.

(** * Further properties of the engine *)

(** ** Grouping of events *)

Lemma group_events_fold (items : list Event) (m : gmap Z (list Event)) (t : Z) :
  default [] (fold_left
                (fun (m : gmap Z (list Event)) item =>
                   <[ev_tick item := (default [] (m !! ev_tick item) ++ [item])%list]> m)
                items m !! t)
  = (default [] (m !! t) ++ filter (fun ev => ev_tick ev = t) items)%list.
Proof.
  revert m. induction items as [|item items IH]; intros m; simpl.
  - rewrite app_nil_r. reflexivity.
  - rewrite IH, filter_cons. rewrite lookup_insert.
    destruct (decide (ev_tick item = t)) as [->|Hne]; simpl.
    + rewrite <- app_assoc. reflexivity.
    + reflexivity.
Qed.

Lemma events_at_as_filter (cfg : Config) (t : Z) :
  events_at cfg t = filter (fun ev => ev_tick ev = t) (incident_events cfg).
Proof.
  unfold events_at, group_events.
  rewrite (group_events_fold (incident_events cfg) ∅ t), lookup_empty.
  reflexivity.
Qed.

(** X1: the events applied at tick [t] are the entries of
    [incident_events] whose tick is [t], in the order in which the
    configuration lists them; nothing else is applied at [t]. *)
Theorem events_in_listed_order (cfg : Config) (t : Z) :
  events_at cfg t = filter (fun ev => ev_tick ev = t) (incident_events cfg) /\
  (forall ev, ev ∈ events_at cfg t <-> ev ∈ incident_events cfg /\ ev_tick ev = t).
Proof.
  split; [apply events_at_as_filter|].
  intros ev. rewrite events_at_as_filter, list_elem_of_filter. tauto.
Qed.

(** ** Events outside the horizon *)

Lemma run_ticks_ext params rs (ebt1 ebt2 : gmap Z (list Event)) ts r :
  (forall t, In t ts -> default [] (ebt1 !! t) = default [] (ebt2 !! t)) ->
  run_ticks params rs ebt1 ts r = run_ticks params rs ebt2 ts r.
Proof.
  revert r. induction ts as [|t ts IH]; intros r Hext; [reflexivity|].
  simpl. unfold tick_body. rewrite (Hext t) by (left; reflexivity).
  destruct (apply_events _ _ _ _) as [[st tl]|msg]; simpl; [|reflexivity].
  apply IH. intros u Hu. apply Hext. right. exact Hu.
Qed.

Lemma range0_In (n t : Z) : In t (range0 n) -> 0 <= t < n.
Proof.
  unfold range0. rewrite in_map_iff. intros (k & <- & Hk).
  apply in_seq in Hk. lia.
Qed.

(** X2: events scheduled outside [0 .. max_tick] have no effect at all:
    the run is the one of the configuration without them.  In
    particular an unknown event or a premature start outside the horizon
    does not make the run raise. *)
Theorem run_ignores_events_outside_horizon (cfg : Config) :
  run (drop_outside_horizon cfg) = run cfg.
Proof.
  unfold run, drop_outside_horizon. simpl.
  rewrite (run_ticks_ext (parameters cfg) (regions cfg)
             (group_events (filter (fun ev => 0 <= ev_tick ev <= max_tick cfg)
                              (incident_events cfg)))
             (group_events (incident_events cfg))).
  - reflexivity.
  - intros t Ht. apply range0_In in Ht.
    pose proof (events_at_as_filter cfg t) as H1.
    pose proof (events_at_as_filter (drop_outside_horizon cfg) t) as H2.
    unfold events_at, drop_outside_horizon in H1, H2. simpl in H2.
    rewrite H1, H2. apply list_filter_filter_l. intros ev Hev. lia.
Qed.

(** ** Rows and counters *)

Lemma counters_step cfg n c d :
  run_upto cfg n = Ok c -> run_upto cfg (S n) = Ok d ->
  exists row,
    metrics_rows d = (metrics_rows c ++ [row])%list /\
    mr_tick row = Z.of_nat n /\
    total_requests (state d) = total_requests (state c) + 1 /\
    denied_requests (state d)
    = (if str_in "PERMISSION_DENIED" (mr_request_result row)
       then denied_requests (state c) + 1 else denied_requests (state c)) /\
    revoked_requests (state d)
    = (if String.eqb (mr_request_result row) "SERVICE_ACCOUNT_REVOKED"
       then revoked_requests (state c) + 1 else revoked_requests (state c)).
Proof.
  intros Hc Hd.
  destruct (tick_step cfg n c d Hc Hd)
    as (st & tl & _ & _ & _ & _ & _ & _ & _ & Htot & Hden & Hrvk & ->).
  rewrite serve_tick_state, serve_tick_rows. cbv zeta.
  eexists. split; [reflexivity|]. simpl. rewrite Htot, Hden, Hrvk. auto.
Qed.

Lemma row_tick cfg M r n row :
  run_upto cfg M = Ok r -> metrics_rows r !! n = Some row ->
  mr_tick row = Z.of_nat n.
Proof.
  intros Hr Hrow.
  destruct (row_of_tick cfg M r n row Hr Hrow) as (c & d & Hc & Hd & Hrows).
  destruct (counters_step cfg n c d Hc Hd) as (row' & Hrows' & Htick & _).
  rewrite Hrows in Hrows'. apply app_inj_tail in Hrows' as [_ <-]. exact Htick.
Qed.

(** X3: a run that completes produces exactly one metrics row per tick
    of [range(0, max_tick + 1)], in tick order: there are
    [max_tick + 1] rows (none when [max_tick] is negative) and row [n]
    carries tick [n]. *)
Theorem one_row_per_tick
    (cfg : Config) (timeline : list string) (rows : list MetricsRow)
    (sm : Summary) :
  run cfg = Ok (timeline, rows, sm) ->
  length rows = Z.to_nat (max_tick cfg + 1) /\
  (max_tick cfg < 0 -> rows = []) /\
  (forall n row, rows !! n = Some row -> mr_tick row = Z.of_nat n).
Proof.
  intros Hrun. apply run_rows in Hrun as (r & Hr & -> & _).
  pose proof (rows_length cfg _ r Hr) as Hlen.
  split; [exact Hlen|]. split.
  - intros Hneg. apply length_zero_iff_nil. rewrite Hlen. lia.
  - intros n row Hrow. apply (row_tick cfg _ r n row Hr Hrow).
Qed.

Lemma one_row_per_tick_witness :
  exists timeline rows sm,
    run stray_cfg = Ok (timeline, rows, sm) /\
    length rows = 3%nat /\ map mr_tick rows = [0; 1; 2].
Proof.
  destruct (run stray_cfg) as [[[timeline rows] sm]|] eqn:Hrun;
    [|vm_compute in Hrun; discriminate].
  destruct (one_row_per_tick stray_cfg timeline rows sm Hrun) as (Hlen & _ & Htick).
  exists timeline, rows, sm. split; [reflexivity|]. split; [exact Hlen|].
  destruct rows as [|r0 [|r1 [|r2 [|r3 rows]]]]; try discriminate Hlen.
  simpl. rewrite (Htick 0%nat r0 eq_refl), (Htick 1%nat r1 eq_refl),
    (Htick 2%nat r2 eq_refl). reflexivity.
Defined.

Lemma counters_count cfg n c :
  run_upto cfg n = Ok c ->
  total_requests (state c) = Z.of_nat n /\
  denied_requests (state c)
  = Z.of_nat (length (filter
       (fun row => str_in "PERMISSION_DENIED" (mr_request_result row) = true)
       (metrics_rows c))) /\
  revoked_requests (state c)
  = Z.of_nat (length (filter
       (fun row => mr_request_result row = "SERVICE_ACCOUNT_REVOKED")
       (metrics_rows c))).
Proof.
  revert c. induction n as [|n IH]; intros c Hc.
  - rewrite run_upto_0 in Hc. injection Hc as <-. auto.
  - destruct (run_upto_le cfg (S n) n c Hc) as [b Hb]; [lia|].
    destruct (IH b Hb) as (Htot & Hden & Hrvk).
    destruct (counters_step cfg n b c Hb Hc)
      as (row & -> & _ & -> & -> & ->).
    rewrite !filter_app, !length_app, !filter_cons, !filter_nil.
    rewrite Htot, Hden, Hrvk. split; [lia|]. split.
    + case_decide as Hin; [rewrite Hin | apply not_true_is_false in Hin; rewrite Hin];
        simpl; lia.
    + case_decide as Heq.
      * apply String.eqb_eq in Heq. rewrite Heq. simpl. lia.
      * apply String.eqb_neq in Heq. rewrite Heq. simpl. lia.
Qed.

(** X4: the counters of the summary agree with the metrics rows:
    [total_requests] is the number of rows, [denied_requests] the number
    of rows whose reason contains PERMISSION_DENIED and
    [revoked_requests] the number of rows whose reason is
    SERVICE_ACCOUNT_REVOKED; hence denied and revoked requests together
    never exceed the total. *)
Theorem summary_counts_rows
    (cfg : Config) (timeline : list string) (rows : list MetricsRow)
    (sm : Summary) :
  run cfg = Ok (timeline, rows, sm) ->
  sm_total_requests sm = Z.of_nat (length rows) /\
  sm_denied_requests sm
  = Z.of_nat (length (filter
       (fun row => str_in "PERMISSION_DENIED" (mr_request_result row) = true)
       rows)) /\
  sm_revoked_requests sm
  = Z.of_nat (length (filter
       (fun row => mr_request_result row = "SERVICE_ACCOUNT_REVOKED") rows)) /\
  sm_denied_requests sm + sm_revoked_requests sm <= sm_total_requests sm.
Proof.
  intros Hrun. apply run_rows in Hrun as (r & Hr & -> & ->).
  destruct (counters_count cfg _ r Hr) as (Htot & Hden & Hrvk).
  pose proof (rows_length cfg _ r Hr) as Hlen.
  unfold summarise. simpl. rewrite Htot, Hden, Hrvk, <- Hlen.
  split; [reflexivity|]. split; [reflexivity|]. split; [reflexivity|].
  clear. induction (metrics_rows r) as [|row rows IH]; simpl; [lia|].
  rewrite !filter_cons.
  destruct (decide (str_in "PERMISSION_DENIED" (mr_request_result row) = true))
    as [Hin|Hin];
  destruct (decide (mr_request_result row = "SERVICE_ACCOUNT_REVOKED"))
    as [Heq|Heq]; simpl; try lia.
  rewrite Heq in Hin. discriminate Hin.
Qed.

Lemma summary_counts_rows_witness :
  exists timeline rows sm,
    run example_cfg = Ok (timeline, rows, sm) /\
    sm_total_requests sm = 11 /\
    sm_denied_requests sm + sm_revoked_requests sm <= sm_total_requests sm.
Proof.
  destruct (run example_cfg) as [[[timeline rows] sm]|] eqn:Hrun;
    [|vm_compute in Hrun; discriminate].
  destruct (summary_counts_rows example_cfg timeline rows sm Hrun)
    as (Htot & _ & _ & Hle).
  exists timeline, rows, sm. split; [reflexivity|]. split; [|exact Hle].
  rewrite Htot. pose proof Hrun as H. vm_compute in H.
  injection H as _ <- _. reflexivity.
Defined.

(** ** Lifecycle flags *)

Lemma _apply_event_lifecycle st ev st' action :
  _apply_event st ev = Ok (st', action) ->
  (service_account_deployed st = true -> service_account_deployed st' = true) /\
  (service_account_in_use st = true -> service_account_in_use st' = true) /\
  ((service_account_in_use st = true -> service_account_deployed st = true) ->
   service_account_in_use st' = true -> service_account_deployed st' = true).
Proof.
  intros H. event_cases H;
    try discriminate; inversion H; subst; simpl; try tauto.
  match goal with E : negb _ = false |- _ => apply negb_false_iff in E end.
  tauto.
Qed.

Lemma apply_events_lifecycle t evs st tl st' tl' :
  apply_events t evs st tl = Ok (st', tl') ->
  (service_account_deployed st = true -> service_account_deployed st' = true) /\
  (service_account_in_use st = true -> service_account_in_use st' = true) /\
  ((service_account_in_use st = true -> service_account_deployed st = true) ->
   service_account_in_use st' = true -> service_account_deployed st' = true).
Proof.
  revert st tl. induction evs as [|ev evs IH]; intros st tl; simpl.
  - intros [= <- _]. tauto.
  - intros H. apply bind_Ok_inv in H as ([st1 a] & H1 & H2).
    apply _apply_event_lifecycle in H1. apply IH in H2. tauto.
Qed.

Lemma lifecycle_step cfg n c d :
  run_upto cfg n = Ok c -> run_upto cfg (S n) = Ok d ->
  (service_account_deployed (state c) = true ->
   service_account_deployed (state d) = true) /\
  (service_account_in_use (state c) = true ->
   service_account_in_use (state d) = true) /\
  ((service_account_in_use (state c) = true ->
    service_account_deployed (state c) = true) ->
   service_account_in_use (state d) = true ->
   service_account_deployed (state d) = true).
Proof.
  intros Hc Hd.
  destruct (tick_step cfg n c d Hc Hd)
    as (st & tl & _ & He & _ & _ & _ & _ & _ & _ & _ & _ & ->).
  destruct (serve_tick_control (parameters cfg) (regions cfg) (Z.of_nat n) st tl
              (metrics_rows c)) as (_ & _ & _ & -> & -> & _).
  apply apply_events_lifecycle in He. simpl in He. exact He.
Qed.

Lemma in_use_deployed cfg n c :
  run_upto cfg n = Ok c ->
  service_account_in_use (state c) = true ->
  service_account_deployed (state c) = true.
Proof.
  revert c. induction n as [|n IH]; intros c Hc.
  - rewrite run_upto_0 in Hc. injection Hc as <-. discriminate.
  - destruct (run_upto_le cfg (S n) n c Hc) as [b Hb]; [lia|].
    apply (lifecycle_step cfg n b c Hb Hc), (IH b Hb).
Qed.

(** X5: in every state a run reaches, a service account that is in use
    is deployed, and neither [service_account_deployed] nor
    [service_account_in_use] is ever reset by a later tick. *)
Theorem lifecycle_flags (cfg : Config) (n m : nat) (c d : Run) :
  run_upto cfg n = Ok c -> run_upto cfg m = Ok d -> (n <= m)%nat ->
  (service_account_in_use (state c) = true ->
   service_account_deployed (state c) = true) /\
  (service_account_deployed (state c) = true ->
   service_account_deployed (state d) = true) /\
  (service_account_in_use (state c) = true ->
   service_account_in_use (state d) = true).
Proof.
  intros Hc Hd Hle. split; [apply (in_use_deployed cfg n c Hc)|].
  revert d Hd. induction Hle as [|m Hle IH]; intros d Hd.
  - rewrite Hc in Hd. injection Hd as <-. tauto.
  - destruct (run_upto_le cfg (S m) m d Hd) as [b Hb]; [lia|].
    destruct (IH b Hb) as [IH1 IH2].
    destruct (lifecycle_step cfg m b d Hb Hd) as (H1 & H2 & _).
    split; auto.
Qed.

Lemma lifecycle_flags_witness :
  exists c d,
    run_upto example_cfg 1 = Ok c /\ run_upto example_cfg 5 = Ok d /\
    service_account_in_use (state c) = true /\
    service_account_deployed (state c) = true /\
    service_account_in_use (state d) = true.
Proof.
  destruct (run_upto example_cfg 1) as [c|] eqn:Hc;
    [|vm_compute in Hc; discriminate].
  destruct (run_upto example_cfg 5) as [d|] eqn:Hd;
    [|vm_compute in Hd; discriminate].
  assert (Huse : service_account_in_use (state c) = true).
  { pose proof Hc as H. vm_compute in H. injection H as <-. reflexivity. }
  destruct (lifecycle_flags example_cfg 1 5 c d Hc Hd ltac:(lia))
    as (H1 & _ & H3).
  exists c, d. auto 10.
Defined.

(** ** The automation stamp *)

Lemma stamp_step cfg n c d :
  run_upto cfg n = Ok c -> run_upto cfg (S n) = Ok d ->
  (service_account_revoked (state c) = true ->
   service_account_revoked (state d) = true /\
   automation_action_tick (state d) = automation_action_tick (state c)) /\
  (service_account_revoked (state c) = false ->
   (service_account_revoked (state d) = true /\
    automation_action_tick (state d) = Some (Z.of_nat n) /\
    automation_trigger_after_ticks (parameters cfg)
      <= consecutive_observed_red (state d)) \/
   (service_account_revoked (state d) = false /\
    automation_action_tick (state d) = automation_action_tick (state c) /\
    consecutive_observed_red (state d)
      < automation_trigger_after_ticks (parameters cfg))).
Proof.
  intros Hc Hd.
  destruct (tick_step cfg n c d Hc Hd)
    as (st & tl & _ & _ & Htk & Hr & _ & _ & Ha & _ & _ & _ & ->).
  destruct (serve_tick_automation (parameters cfg) (regions cfg) (Z.of_nat n)
              st tl (metrics_rows c)) as (_ & H1 & H2 & H3).
  rewrite <- Hr, <- Ha. split; [exact H1|]. intros Hrev.
  match goal with
  | |- (_ /\ _ /\ ?N <= ?s) \/ _ => destruct (Z.le_gt_cases N s) as [Hge|Hlt]
  end.
  - left. destruct (H2 Hrev Hge) as [Hd1 Hd2]. rewrite Htk in Hd2. auto.
  - right. destruct (H3 Hrev ltac:(lia)). split; [|split]; [assumption..|lia].
Qed.

(** X6: in every state a run reaches, [automation_action_tick] is unset
    exactly when the service account is not revoked, and when it is set
    it holds the tick, earlier in the run, during which the automation
    revoked the account. *)
Theorem automation_stamp (cfg : Config) (n : nat) (c : Run) :
  run_upto cfg n = Ok c ->
  (automation_action_tick (state c) = None <->
   service_account_revoked (state c) = false) /\
  (forall k, automation_action_tick (state c) = Some k ->
     exists T, k = Z.of_nat T /\ (T < n)%nat /\ revoked_at cfg T).
Proof.
  revert c. induction n as [|n IH]; intros c Hc.
  - rewrite run_upto_0 in Hc. injection Hc as <-. simpl.
    split; [tauto | discriminate].
  - destruct (run_upto_le cfg (S n) n c Hc) as [b Hb]; [lia|].
    destruct (IH b Hb) as [IHnone IHsome].
    destruct (stamp_step cfg n b c Hb Hc) as [Hrev Hnot].
    destruct (service_account_revoked (state b)) eqn:Hbrev.
    + destruct (Hrev eq_refl) as [Hc1 Hc2]. rewrite Hc1, Hc2. split.
      * exact IHnone.
      * intros k Hk. destruct (IHsome k Hk) as (T & HT & Hlt & Hat).
        exists T. split; [exact HT|]. split; [lia | exact Hat].
    + destruct (Hnot eq_refl) as [(Hc1 & Hc2 & _)|(Hc1 & Hc2 & _)];
        rewrite Hc1, Hc2.
      * split; [split; discriminate|]. intros k [= <-].
        exists n. split; [reflexivity|]. split; [lia|].
        exists b, c. auto.
      * split; [exact IHnone|]. intros k Hk.
        rewrite (proj2 IHnone eq_refl) in Hk. discriminate Hk.
Qed.

Lemma automation_stamp_witness :
  exists c,
    run_upto example_cfg 4 = Ok c /\
    automation_action_tick (state c) = Some 1 /\
    service_account_revoked (state c) = true /\
    revoked_at example_cfg 1.
Proof.
  destruct (run_upto example_cfg 4) as [c|] eqn:Hc;
    [|vm_compute in Hc; discriminate].
  assert (Hk : automation_action_tick (state c) = Some 1).
  { pose proof Hc as H. vm_compute in H. injection H as <-. reflexivity. }
  destruct (automation_stamp example_cfg 4 c Hc) as [Hnone Hsome].
  destruct (Hsome 1 Hk) as (T & HT & _ & Hat).
  assert (T = 1%nat) as -> by lia.
  exists c. split; [reflexivity|]. split; [exact Hk|]. split; [|exact Hat].
  destruct (service_account_revoked (state c)); [reflexivity|].
  rewrite (proj2 Hnone eq_refl) in Hk. discriminate Hk.
Defined.

(** ** The streak and the observer column *)

(** X7: the streak is determined by the observer column alone: the
    [consecutive_observed_red] of row [n] is the length of the run of RED
    observations that ends at tick [n] (0 when the observer of tick [n]
    is not RED). *)
Theorem streak_reflects_observer
    (cfg : Config) (timeline : list string) (rows : list MetricsRow)
    (sm : Summary) (n : nat) (row : MetricsRow) :
  run cfg = Ok (timeline, rows, sm) ->
  rows !! n = Some row ->
  mr_consecutive_observed_red row
  = Z.of_nat (trailing_red (map mr_observer (take (S n) rows))).
Proof.
  intros Hrun Hrow. apply run_rows in Hrun as (r & Hr & -> & _).
  destruct (row_of_tick cfg _ r n row Hr Hrow) as (c & d & Hc & Hd & Hrows).
  destruct (row_records_state cfg n c d Hc Hd) as (row' & Hrows' & Hfield & _).
  rewrite Hrows in Hrows'. apply app_inj_tail in Hrows' as [_ <-].
  pose proof (lookup_lt_Some _ _ _ Hrow) as Hlt.
  rewrite (rows_length cfg _ r Hr) in Hlt.
  destruct (rows_prefix cfg (S n) _ d r Hd Hr) as [rest Hrest]; [lia|].
  rewrite Hfield, (streak_trailing_red cfg (S n) d Hd), Hrest.
  rewrite take_app_length' by (symmetry; apply (rows_length cfg (S n) d Hd)).
  reflexivity.
Qed.

Lemma streak_reflects_observer_witness :
  exists timeline rows sm row,
    run recovery_cfg = Ok (timeline, rows, sm) /\
    rows !! 2%nat = Some row /\
    map mr_observer (take 3 rows) = ["RED"; "RED"; "RED"] /\
    mr_consecutive_observed_red row = 3.
Proof.
  destruct (run recovery_cfg) as [[[timeline rows] sm]|] eqn:Hrun;
    [|vm_compute in Hrun; discriminate].
  assert (Hobs : map mr_observer (take 3 rows) = ["RED"; "RED"; "RED"]).
  { pose proof Hrun as H. vm_compute in H. injection H as _ <- _. reflexivity. }
  destruct rows as [|r0 [|r1 [|r2 rows]]]; try discriminate Hobs.
  exists timeline, (r0 :: r1 :: r2 :: rows), sm, r2.
  split; [reflexivity|]. split; [reflexivity|]. split; [exact Hobs|].
  rewrite (streak_reflects_observer recovery_cfg timeline (r0 :: r1 :: r2 :: rows)
             sm 2 r2 Hrun eq_refl).
  rewrite Hobs. reflexivity.
Defined.

(** ** A threshold that is not positive *)

Lemma revoked_from_first_tick cfg n c :
  automation_trigger_after_ticks (parameters cfg) <= 0 ->
  run_upto cfg (S n) = Ok c ->
  service_account_revoked (state c) = true /\
  automation_action_tick (state c) = Some 0.
Proof.
  intros HN. revert c. induction n as [|n IH]; intros c Hc.
  - destruct (stamp_step cfg 0 Run_init c (run_upto_0 cfg) Hc) as [_ H].
    destruct (H eq_refl) as [(H1 & H2 & _)|(_ & _ & Hlt)]; [auto|].
    destruct (row_records_state cfg 0 Run_init c (run_upto_0 cfg) Hc)
      as (row & _ & _ & _ & _ & Hs).
    simpl in Hs. rewrite Hs in Hlt. destruct (String.eqb _ "RED"); lia.
  - destruct (run_upto_le cfg (S (S n)) (S n) c Hc) as [b Hb]; [lia|].
    destruct (IH b Hb) as [Hrev Hstamp].
    destruct (stamp_step cfg (S n) b c Hb Hc) as [H _].
    destruct (H Hrev) as [H1 H2]. split; congruence.
Qed.

(** X8: with [automation_trigger_after_ticks <= 0] the automation
    revokes the service account during tick 0 whatever the observer
    reports: every row shows the account revoked and the summary stamps
    tick 0. *)
Theorem nonpositive_threshold_revokes_at_once
    (cfg : Config) (timeline : list string) (rows : list MetricsRow)
    (sm : Summary) :
  automation_trigger_after_ticks (parameters cfg) <= 0 ->
  0 <= max_tick cfg ->
  run cfg = Ok (timeline, rows, sm) ->
  sm_automation_action_tick sm = Some 0 /\
  forall n row, rows !! n = Some row -> mr_service_account_revoked row = 1.
Proof.
  intros HN Hmax Hrun. apply run_rows in Hrun as (r & Hr & -> & ->).
  split.
  - unfold summarise. simpl.
    destruct (Z.to_nat (max_tick cfg + 1)) as [|M] eqn:HM; [lia|].
    apply (revoked_from_first_tick cfg M r HN Hr).
  - intros n row Hrow.
    destruct (row_of_tick cfg _ r n row Hr Hrow) as (c & d & Hc & Hd & Hrows).
    destruct (row_records_state cfg n c d Hc Hd) as (row' & Hrows' & _ & Hf & _).
    rewrite Hrows in Hrows'. apply app_inj_tail in Hrows' as [_ <-].
    rewrite Hf. destruct (revoked_from_first_tick cfg n d HN Hd) as [-> _].
    reflexivity.
Qed.

Lemma nonpositive_threshold_revokes_at_once_witness :
  exists timeline rows sm,
    run eager_cfg = Ok (timeline, rows, sm) /\
    map (fun r => (mr_request_result r, mr_observer r)) rows
    = [("OK", "GREEN"); ("SERVICE_ACCOUNT_REVOKED", "RED");
       ("SERVICE_ACCOUNT_REVOKED", "RED")] /\
    sm_automation_action_tick sm = Some 0 /\
    map mr_service_account_revoked rows = [1; 1; 1].
Proof.
  destruct (run eager_cfg) as [[[timeline rows] sm]|] eqn:Hrun;
    [|vm_compute in Hrun; discriminate].
  assert (Hrows : map (fun r => (mr_request_result r, mr_observer r)) rows
                  = [("OK", "GREEN"); ("SERVICE_ACCOUNT_REVOKED", "RED");
                     ("SERVICE_ACCOUNT_REVOKED", "RED")]).
  { pose proof Hrun as H. vm_compute in H. injection H as _ <- _. reflexivity. }
  destruct (nonpositive_threshold_revokes_at_once eager_cfg timeline rows sm
              ltac:(simpl; lia) ltac:(simpl; lia) Hrun) as [Hstamp Hall].
  exists timeline, rows, sm. split; [reflexivity|]. split; [exact Hrows|].
  split; [exact Hstamp|].
  destruct rows as [|r0 [|r1 [|r2 [|r3 rows]]]]; try discriminate Hrows.
  simpl. rewrite (Hall 0%nat r0 eq_refl), (Hall 1%nat r1 eq_refl),
    (Hall 2%nat r2 eq_refl). reflexivity.
Defined.

(** ** The observer colour and the request history *)

(** The cache window is armed by the latest failed request, and is unset
    exactly as long as no request has failed. *)
Lemma cache_history cfg M r n c :
  run_upto cfg M = Ok r -> (n <= M)%nat -> run_upto cfg n = Ok c ->
  match cached_red_until_tick (state c) with
  | None =>
      forall u ru, (u < n)%nat -> metrics_rows r !! u = Some ru ->
                   mr_request_result ru = "OK"
  | Some v =>
      exists T rowT,
        (T < n)%nat /\ metrics_rows r !! T = Some rowT /\
        mr_request_result rowT <> "OK" /\
        v = Z.of_nat T + observer_cache_ttl_ticks (parameters cfg) /\
        forall u ru, (T < u < n)%nat -> metrics_rows r !! u = Some ru ->
                     mr_request_result ru = "OK"
  end.
Proof.
  intros Hr. revert c. induction n as [|n IH]; intros c Hle Hc.
  - rewrite run_upto_0 in Hc. injection Hc as <-. simpl. intros u ru Hu. lia.
  - assert (Hlt : (n < length (metrics_rows r))%nat)
      by (rewrite (rows_length cfg M r Hr); lia).
    apply lookup_lt_is_Some_2 in Hlt as [row Hrow].
    destruct (row_facts cfg M r n row Hr Hrow)
      as (b & d & st & Hb & Hd & _ & _ & Hcache & _).
    rewrite Hd in Hc. injection Hc as <-. rewrite Hcache.
    specialize (IH b ltac:(lia) Hb).
    destruct (String.eqb_spec (mr_request_result row) "OK") as [Hok|Hfail].
    + destruct (cached_red_until_tick (state b)) as [v|].
      * destruct IH as (T & rowT & HT & HrowT & Hf & Hv & Hafter).
        exists T, rowT. repeat split; try assumption; [lia|].
        intros u ru Hu Hru. destruct (decide (u = n)) as [->|Hne].
        -- congruence.
        -- apply (Hafter u ru); [lia | exact Hru].
      * intros u ru Hu Hru. destruct (decide (u = n)) as [->|Hne].
        -- congruence.
        -- apply (IH u ru); [lia | exact Hru].
    + exists n, row. repeat split; try assumption; [lia|].
      intros u ru Hu. lia.
Qed.

(** X9: the observer reports RED or GREEN, and it reports RED at tick
    [t] exactly when the request of tick [t] fails or some request of an
    earlier tick [T] failed with [t <= T + observer_cache_ttl_ticks]. *)
Theorem observer_red_iff_recent_failure
    (cfg : Config) (timeline : list string) (rows : list MetricsRow)
    (sm : Summary) (t : nat) (row : MetricsRow) :
  run cfg = Ok (timeline, rows, sm) ->
  rows !! t = Some row ->
  (mr_observer row = "RED" \/ mr_observer row = "GREEN") /\
  (mr_observer row = "RED" <->
   mr_request_result row <> "OK" \/
   exists T rowT,
     (T < t)%nat /\ rows !! T = Some rowT /\
     mr_request_result rowT <> "OK" /\
     Z.of_nat t <= Z.of_nat T + observer_cache_ttl_ticks (parameters cfg)).
Proof.
  intros Hrun Hrow. apply run_rows in Hrun as (r & Hr & -> & _).
  set (M := Z.to_nat (max_tick cfg + 1)) in *.
  destruct (row_facts cfg M r t row Hr Hrow)
    as (c & d & st & Hc & Hd & Htk & Hcache & _ & ->).
  pose proof (lookup_lt_Some _ _ _ Hrow) as Hlt.
  rewrite (rows_length cfg M r Hr) in Hlt.
  pose proof (cache_history cfg M r t c Hr ltac:(lia) Hc) as Hinv.
  rewrite <- Hcache in Hinv. unfold _observer_color.
  destruct (String.eqb_spec (mr_request_result row) "OK") as [Hok|Hfail]; simpl.
  - destruct (cached_red_until_tick st) as [v|].
    + destruct Hinv as (T & rowT & HT & HrowT & Hf & Hv & Hafter).
      rewrite Htk. destruct (Z.leb_spec (Z.of_nat t) v) as [Hin|Hout]; simpl.
      * split; [auto|]. split; [|reflexivity]. intros _. right.
        exists T, rowT. repeat split; try assumption. lia.
      * split; [auto|]. split; [discriminate|].
        intros [Hno|(T' & rowT' & HT' & HrowT' & Hf' & Hle)]; [congruence|].
        exfalso. destruct (Nat.le_gt_cases T' T) as [Hle'|Hgt]; [lia|].
        apply Hf', (Hafter T' rowT'); [lia | exact HrowT'].
    + split; [auto|]. split; [discriminate|].
      intros [Hno|(T' & rowT' & HT' & HrowT' & Hf' & Hle)]; [congruence|].
      exfalso. apply Hf', (Hinv T' rowT' HT' HrowT').
  - split; [auto|]. split; [auto | reflexivity].
Qed.

Lemma observer_red_iff_recent_failure_witness :
  exists timeline rows sm row2 row3,
    run recovery_cfg = Ok (timeline, rows, sm) /\
    rows !! 2%nat = Some row2 /\ rows !! 3%nat = Some row3 /\
    mr_request_result row2 = "OK" /\ mr_observer row2 = "RED" /\
    mr_observer row3 <> "RED".
Proof.
  destruct (run recovery_cfg) as [[[timeline rows] sm]|] eqn:Hrun;
    [|vm_compute in Hrun; discriminate].
  assert (Hrows :
    map (fun r => (mr_request_result r, mr_observer r)) rows
    = [("PERMISSION_DENIED(us-east)", "RED"); ("OK", "RED"); ("OK", "RED");
       ("OK", "GREEN"); ("OK", "GREEN"); ("OK", "GREEN")]).
  { pose proof Hrun as H. vm_compute in H. injection H as _ <- _. reflexivity. }
  destruct rows as [|row0 [|row1 [|row2 [|row3 rows]]]]; try discriminate Hrows.
  injection Hrows as H0 _ _ _ H2 _ _ H3 _.
  destruct (observer_red_iff_recent_failure recovery_cfg timeline
              (row0 :: row1 :: row2 :: row3 :: rows) sm 2 row2 Hrun eq_refl)
    as [_ Hiff].
  exists timeline, (row0 :: row1 :: row2 :: row3 :: rows), sm, row2, row3.
  split; [reflexivity|]. split; [reflexivity|]. split; [reflexivity|].
  split; [exact H2|]. split.
  - apply Hiff. right. exists 0%nat, row0.
    split; [lia|]. split; [reflexivity|]. split; [rewrite H0; discriminate|].
    simpl. lia.
  - rewrite H3. discriminate.
Defined.

(** ** The reasons a request can report *)

Lemma _service_request_reason st params rs :
  snd (_service_request st params rs) = "SERVICE_NOT_STARTED" \/
  snd (_service_request st params rs) = "SERVICE_ACCOUNT_REVOKED" \/
  snd (_service_request st params rs) = "OK" \/
  exists r rest, rs = r :: rest /\
    snd (_service_request st params rs) = "PERMISSION_DENIED(" +:+ r +:+ ")".
Proof.
  unfold _service_request.
  destruct (negb (service_account_in_use st)); [auto|].
  destruct (service_account_revoked st); [auto|].
  destruct rs as [|r rest]; [simpl; auto|].
  destruct (_region_enforces_role (tick st) (role_attached_tick st)
              (propagation_lag_ticks params)) eqn:He.
  - rewrite (_service_request_regions_ok st params (r :: rest) He). auto.
  - rewrite (_service_request_regions_denied st params r rest He).
    right. right. right. exists r, rest. auto.
Qed.

Lemma row_reason cfg M r n row :
  run_upto cfg M = Ok r -> metrics_rows r !! n = Some row ->
  exists st,
    at_request cfg n = Ok st /\
    mr_request_result row
    = snd (_service_request st (parameters cfg) (regions cfg)).
Proof.
  intros Hr Hrow.
  destruct (row_of_tick cfg M r n row Hr Hrow) as (c & d & Hc & Hd & Hrows).
  destruct (rows_step cfg n c d Hc Hd)
    as (st & Hat & _ & _ & _ & row' & Hrows' & _ & Hres & _).
  rewrite Hrows in Hrows'. apply app_inj_tail in Hrows' as [_ <-].
  exists st. auto.
Qed.

(** X10: the reason recorded for a tick is SERVICE_NOT_STARTED,
    SERVICE_ACCOUNT_REVOKED, OK, or PERMISSION_DENIED naming the first
    configured region; and the substring test that feeds
    [denied_requests] holds for the last form only, whatever the region
    names are. *)
Theorem reasons_of_a_run
    (cfg : Config) (timeline : list string) (rows : list MetricsRow)
    (sm : Summary) (n : nat) (row : MetricsRow) :
  run cfg = Ok (timeline, rows, sm) ->
  rows !! n = Some row ->
  (mr_request_result row = "SERVICE_NOT_STARTED" \/
   mr_request_result row = "SERVICE_ACCOUNT_REVOKED" \/
   mr_request_result row = "OK" \/
   exists r rest, regions cfg = r :: rest /\
     mr_request_result row = "PERMISSION_DENIED(" +:+ r +:+ ")") /\
  (str_in "PERMISSION_DENIED" (mr_request_result row) = true <->
   exists r rest, regions cfg = r :: rest /\
     mr_request_result row = "PERMISSION_DENIED(" +:+ r +:+ ")").
Proof.
  intros Hrun Hrow. apply run_rows in Hrun as (r & Hr & -> & _).
  destruct (row_reason cfg _ r n row Hr Hrow) as (st & _ & ->).
  pose proof (_service_request_reason st (parameters cfg) (regions cfg)) as Hv.
  split; [exact Hv|]. split.
  - intros Hin. destruct Hv as [Hv|[Hv|[Hv|Hv]]]; [| | |exact Hv];
      rewrite Hv in Hin; discriminate Hin.
  - intros (r0 & rest & _ & ->). apply str_in_permission_denied.
Qed.

Lemma reasons_of_a_run_witness :
  exists timeline rows sm row,
    run example_cfg = Ok (timeline, rows, sm) /\
    rows !! 0%nat = Some row /\
    mr_request_result row = "PERMISSION_DENIED(us-east)".
Proof.
  destruct (run example_cfg) as [[[timeline rows] sm]|] eqn:Hrun;
    [|vm_compute in Hrun; discriminate].
  assert (Hrow : exists row, rows !! 0%nat = Some row /\
                   str_in "PERMISSION_DENIED" (mr_request_result row) = true).
  { pose proof Hrun as H. vm_compute in H. injection H as _ <- _.
    eexists. split; reflexivity. }
  destruct Hrow as (row & Hrow & Hin).
  destruct (reasons_of_a_run example_cfg timeline rows sm 0 row Hrun Hrow)
    as [_ Hiff].
  destruct (proj1 Hiff Hin) as (r0 & rest & Hregions & Hres).
  injection Hregions as <- <-.
  exists timeline, rows, sm, row. auto.
Defined.

(** ** Regions after the first *)

Lemma _service_request_first_region st params r rest :
  _service_request st params (r :: rest) = _service_request st params [r].
Proof.
  unfold _service_request.
  destruct (negb (service_account_in_use st)); [reflexivity|].
  destruct (service_account_revoked st); [reflexivity|].
  destruct (_region_enforces_role (tick st) (role_attached_tick st)
              (propagation_lag_ticks params)) eqn:He.
  - rewrite !_service_request_regions_ok by exact He. reflexivity.
  - rewrite !_service_request_regions_denied by exact He. reflexivity.
Qed.

Lemma run_ticks_regions params rs1 rs2 ebt ts r :
  (forall st, _service_request st params rs1 = _service_request st params rs2) ->
  run_ticks params rs1 ebt ts r = run_ticks params rs2 ebt ts r.
Proof.
  intros Hreq. revert r. induction ts as [|t ts IH]; intros r; [reflexivity|].
  simpl. unfold tick_body.
  destruct (apply_events _ _ _ _) as [[st tl]|msg]; simpl; [|reflexivity].
  unfold serve_tick. rewrite Hreq. apply IH.
Qed.

(** X11: only the first configured region matters: dropping every
    region after the first leaves the timeline, the metrics rows and the
    summary of the run as they are. *)
Theorem only_first_region_matters
    (name : string) (horizon : Z) (params : Params) (r : string)
    (rest : list string) (events : list Event) :
  run (mkConfig name horizon params (r :: rest) events)
  = run (mkConfig name horizon params [r] events).
Proof.
  unfold run. simpl.
  rewrite (run_ticks_regions params (r :: rest) [r]).
  - reflexivity.
  - intros st. apply _service_request_first_region.
Qed.

(** ** Where an exception comes from *)









(** ** The timeline *)

Lemma apply_events_timeline t evs st tl st' tl' :
  apply_events t evs st tl = Ok (st', tl') ->
  exists actions,
    length actions = length evs /\
    tl' = (tl ++ map (fun a => "T" +:+ pretty t +:+ ": EVENT " +:+ a) actions)%list.
Proof.
  revert st tl. induction evs as [|ev evs IH]; intros st tl; simpl.
  - intros [= <- <-]. exists []. rewrite app_nil_r. auto.
  - intros H. apply bind_Ok_inv in H as ([st1 a] & _ & H2).
    destruct (IH _ _ H2) as (actions & Hlen & ->).
    exists (a :: actions). simpl. rewrite Hlen, <- app_assoc. auto.
Qed.

Lemma serve_tick_timeline_raw params rs t st tl rows :
  let req := _service_request st params rs in
  let oc := _observer_color st params (fst req) in
  let au := _automation_step (fst oc) params (snd oc) in
  timeline_lines (serve_tick params rs t st tl rows)
  = (tl ++ ["T" +:+ pretty t +:+ ": REQUEST " +:+ snd req;
            "T" +:+ pretty t +:+ ": OBSERVER " +:+ snd oc
              +:+ " consecutive_red=" +:+ pretty (consecutive_observed_red st)]
        ++ match snd au with
           | Some a => ["T" +:+ pretty t +:+ ": DECISION WRONG " +:+ a]
           | None => []
           end)%list.
Proof.
  unfold serve_tick. destruct (_service_request st params rs) as [ok reason].
  case_state st. cbn [fst snd].
  destruct (str_in _ reason), (String.eqb reason _), ok;
    unfold _observer_color, _automation_step; simpl; branches;
    try congruence; rewrite <- ?app_assoc; reflexivity.
Qed.

Lemma _automation_step_fired st params color :
  snd (_automation_step st params color)
  = if negb (service_account_revoked st)
       && service_account_revoked (fst (_automation_step st params color))
    then Some AUTOMATION_REVOKE else None.
Proof.
  unfold _automation_step. cbv zeta. case_state st.
  destruct (String.eqb color "RED"), rev; simpl;
    try match goal with |- context [?a >=? ?b] => destruct (a >=? b) end;
    reflexivity.
Qed.

Lemma _observer_color_revoked st params ok :
  service_account_revoked (fst (_observer_color st params ok))
  = service_account_revoked st.
Proof. unfold _observer_color. destruct ok; simpl; branches; reflexivity. Qed.

Lemma serve_tick_timeline params rs t st tl rows :
  let d := serve_tick params rs t st tl rows in
  exists row,
    metrics_rows d = (rows ++ [row])%list /\
    timeline_lines d
    = (tl ++ ["T" +:+ pretty t +:+ ": REQUEST " +:+ mr_request_result row;
              "T" +:+ pretty t +:+ ": OBSERVER " +:+ mr_observer row
                +:+ " consecutive_red=" +:+ pretty (consecutive_observed_red st)]
          ++ (if negb (service_account_revoked st)
                 && service_account_revoked (state d)
              then ["T" +:+ pretty t +:+ ": DECISION WRONG " +:+ AUTOMATION_REVOKE]
              else []))%list.
Proof.
  cbv zeta. rewrite serve_tick_rows, serve_tick_state, serve_tick_timeline_raw.
  cbv zeta. eexists. split; [reflexivity|].
  cbn [mr_request_result mr_observer]. rewrite _automation_step_fired.
  rewrite _observer_color_revoked.
  cbn [service_account_revoked set_total_requests set_denied_requests
         set_revoked_requests].
  match goal with |- context [if ?b then Some _ else None] => destruct b end;
    reflexivity.
Qed.

(** X13: a tick appends to the timeline one EVENT line per event of the
    tick, then one REQUEST line with the reason of the tick's row, then
    one OBSERVER line with the colour of the row and the streak as the
    previous tick left it (the automation step has not run yet), and a
    DECISION line exactly when the automation revokes during the tick. *)
Theorem timeline_of_a_tick (cfg : Config) (n : nat) (c d : Run) :
  run_upto cfg n = Ok c -> run_upto cfg (S n) = Ok d ->
  exists actions row,
    length actions = length (events_at cfg (Z.of_nat n)) /\
    metrics_rows d = (metrics_rows c ++ [row])%list /\
    timeline_lines d
    = (timeline_lines c
       ++ map (fun a => "T" +:+ pretty (Z.of_nat n) +:+ ": EVENT " +:+ a) actions
       ++ ["T" +:+ pretty (Z.of_nat n) +:+ ": REQUEST " +:+ mr_request_result row;
           "T" +:+ pretty (Z.of_nat n) +:+ ": OBSERVER " +:+ mr_observer row
             +:+ " consecutive_red="
             +:+ pretty (consecutive_observed_red (state c))]
       ++ (if negb (service_account_revoked (state c))
              && service_account_revoked (state d)
           then ["T" +:+ pretty (Z.of_nat n) +:+ ": DECISION WRONG "
                   +:+ AUTOMATION_REVOKE]
           else []))%list.
Proof.
  intros Hc Hd.
  destruct (tick_step cfg n c d Hc Hd)
    as (st & tl & _ & He & _ & Hr & _ & Hs & _ & _ & _ & _ & ->).
  destruct (apply_events_timeline _ _ _ _ _ _ He) as (actions & Hlen & ->).
  destruct (serve_tick_timeline (parameters cfg) (regions cfg) (Z.of_nat n) st
              (timeline_lines c
               ++ map (fun a => "T" +:+ pretty (Z.of_nat n) +:+ ": EVENT " +:+ a)
                    actions)%list (metrics_rows c)) as (row & Hrows & Htl).
  exists actions, row. split; [exact Hlen|]. split; [exact Hrows|].
  rewrite Htl, Hr, Hs, <- !app_assoc. reflexivity.
Qed.

Lemma timeline_of_a_tick_witness :
  exists c d,
    run_upto example_cfg 1 = Ok c /\ run_upto example_cfg 2 = Ok d /\
    timeline_lines d
    = (timeline_lines c
       ++ ["T1: REQUEST PERMISSION_DENIED(us-east)";
           "T1: OBSERVER RED consecutive_red=1";
           "T1: DECISION WRONG " +:+ AUTOMATION_REVOKE])%list.
Proof.
  destruct (run_upto example_cfg 1) as [c|] eqn:Hc;
    [|vm_compute in Hc; discriminate].
  destruct (run_upto example_cfg 2) as [d|] eqn:Hd;
    [|vm_compute in Hd; discriminate].
  destruct (timeline_of_a_tick example_cfg 1 c d Hc Hd)
    as (actions & row & Hlen & Hrows & Htl).
  exists c, d. split; [reflexivity|]. split; [reflexivity|].
  rewrite Htl. clear Htl.
  destruct actions; [|vm_compute in Hlen; discriminate Hlen].
  pose proof Hc as Hc'. vm_compute in Hc'. injection Hc' as <-.
  pose proof Hd as Hd'. vm_compute in Hd'. injection Hd' as <-.
  simpl in Hrows. injection Hrows as <-. reflexivity.
Defined.

(** * Properties of the frozen artifact contract *)

Lemma run_negative_horizon cfg :
  max_tick cfg < 0 -> run cfg = Ok ([], [], summarise cfg State_default).
Proof.
  intros Hneg. rewrite run_unfold.
  replace (Z.to_nat (max_tick cfg + 1)) with 0%nat by lia.
  rewrite run_upto_0. reflexivity.
Qed.

Lemma run_rows_nonempty cfg timeline rows sm :
  run cfg = Ok (timeline, rows, sm) -> 0 <= max_tick cfg -> rows <> [].
Proof.
  intros Hrun Hmax ->. apply run_rows in Hrun as (r & Hr & Hrows & _).
  apply rows_length in Hr. rewrite <- Hrows in Hr. simpl in Hr. lia.
Qed.

Lemma append_empty_r (s : string) : s +:+ "" = s.
Proof.
  induction s as [|a s IH]; [reflexivity|].
  rewrite append_cons, IH. reflexivity.
Qed.

Section ArtifactProperties.

Variable sha256_hexdigest : string -> string.
Variable csv_line : list string -> string.
Variable path_join : string -> string -> string.
Variable path_dirname : string -> string.
Variable makedirs_error : string -> option exn.

Local Abbreviation main' :=
  (main sha256_hexdigest csv_line path_join path_dirname makedirs_error).

Local Abbreviation makedirs' := (os_makedirs makedirs_error).

Local Abbreviation timeline_text tl :=
  (String.concat (String (Ascii.ascii_of_nat 10) "") tl
   +:+ String (Ascii.ascii_of_nat 10) "").

(** The freeze path of [main], when both directories can be made. *)
Lemma main_freezes cfg outdir v fs timeline rows sm :
  run cfg = Ok (timeline, rows, sm) ->
  makedirs' (path_dirname (path_join outdir "timeline.log")) = Ok tt ->
  makedirs' (path_dirname (path_join outdir "metrics.csv")) = Ok tt ->
  main' cfg (mkArgs outdir true v) fs
  = (Returned (["WROTE FROZEN ARTIFACTS"; path_join outdir "timeline.log";
                path_join outdir "metrics.csv"] ++ summary_lines sm)%list,
     <[path_join outdir "metrics.csv"
       := csv_text csv_line
            (match rows with [] => [] | _ :: _ => fieldnames end) rows]>
       (<[path_join outdir "timeline.log" := timeline_text timeline]> fs)).
Proof.
  intros Hrun Htl Hmx. unfold main, _write_text, _write_csv.
  rewrite Hrun. cbn [args_write args_verify args_outdir].
  replace ((if negb true && negb v then true else v) && negb true) with false
    by (destruct v; reflexivity).
  rewrite Htl, Hmx. reflexivity.
Qed.

(** The verify path of [main]. *)
Lemma main_verifies cfg outdir v fs timeline rows sm :
  run cfg = Ok (timeline, rows, sm) ->
  main' cfg (mkArgs outdir false v) fs
  = (match fs !! path_join outdir "timeline.log",
           fs !! path_join outdir "metrics.csv" with
     | Some old_tl, Some old_mx =>
         if negb (String.eqb (sha256_hexdigest old_tl)
                    (sha256_hexdigest (timeline_text timeline)))
         then SystemExit TIMELINE_MISMATCH
         else if negb (String.eqb (sha256_hexdigest old_mx)
                         (sha256_hexdigest (_serialize_csv csv_line rows)))
         then SystemExit METRICS_MISMATCH
         else Returned ("VERIFY OK" :: summary_lines sm)
     | _, _ => SystemExit MISSING
     end, fs).
Proof.
  intros Hrun. unfold main, _read_bytes, _sha256_bytes.
  rewrite Hrun. cbn [args_write args_verify args_outdir].
  replace ((if negb false && negb v then true else v) && negb false) with true
    by (destruct v; reflexivity).
  destruct (fs !! _) as [old_tl|]; [|reflexivity].
  destruct (fs !! _) as [old_mx|]; [|reflexivity].
  repeat match goal with
    | |- context [if ?b then _ else _] => destruct b
    end; reflexivity.
Qed.

(** X14: the [--verify] flag has no effect, and the [--write] flag alone
    selects the mode: with [--write] (also together with [--verify]) a
    completed run is frozen, that is, both artifacts are stored and
    WROTE FROZEN ARTIFACTS is printed, provided their directories can be
    made; without [--write] a completed run is verified, that is, the
    store is left as it is and [main] prints VERIFY OK or exits with one
    of the three verification messages. *)
Theorem verify_flag_is_inert
    (cfg : Config) (outdir : string) (verify verify' : bool)
    (fs : gmap string string) :
  (forall write,
     main' cfg (mkArgs outdir write verify) fs
     = main' cfg (mkArgs outdir write verify') fs) /\
  (forall timeline rows sm,
     run cfg = Ok (timeline, rows, sm) ->
     makedirs' (path_dirname (path_join outdir "timeline.log")) = Ok tt ->
     makedirs' (path_dirname (path_join outdir "metrics.csv")) = Ok tt ->
     main' cfg (mkArgs outdir true verify) fs
     = (Returned (["WROTE FROZEN ARTIFACTS"; path_join outdir "timeline.log";
                   path_join outdir "metrics.csv"] ++ summary_lines sm)%list,
        <[path_join outdir "metrics.csv"
          := csv_text csv_line
               (match rows with [] => [] | _ :: _ => fieldnames end) rows]>
          (<[path_join outdir "timeline.log" := timeline_text timeline]> fs))) /\
  (forall timeline rows sm,
     run cfg = Ok (timeline, rows, sm) ->
     snd (main' cfg (mkArgs outdir false verify) fs) = fs /\
     (fst (main' cfg (mkArgs outdir false verify) fs)
        = Returned ("VERIFY OK" :: summary_lines sm) \/
      fst (main' cfg (mkArgs outdir false verify) fs) = SystemExit MISSING \/
      fst (main' cfg (mkArgs outdir false verify) fs)
        = SystemExit TIMELINE_MISMATCH \/
      fst (main' cfg (mkArgs outdir false verify) fs)
        = SystemExit METRICS_MISMATCH)).
Proof.
  split; [|split].
  - intros write. unfold main. cbn [args_write args_verify args_outdir].
    destruct (run cfg) as [[[timeline rows] sm]|e]; [|reflexivity].
    destruct write, verify, verify'; reflexivity.
  - intros timeline rows sm. apply main_freezes.
  - intros timeline rows sm Hrun.
    rewrite (main_verifies cfg outdir verify fs timeline rows sm Hrun).
    split; [reflexivity|]. cbn [fst].
    destruct (fs !! _) as [old_tl|]; [|auto].
    destruct (fs !! _) as [old_mx|]; [|auto].
    repeat match goal with
      | |- context [if ?b then _ else _] => destruct b
      end; auto.
Qed.

(** X15: [main] changes the file store only when it freezes a run that
    completed: verifying leaves the store as it is whatever the outcome,
    an exception of [run] leaves it as it is in either mode, and
    verifying a completed run against a store that lacks one of the two
    artifacts exits with the missing-artifacts message. *)
Theorem main_keeps_store
    (cfg : Config) (args : Args) (fs : gmap string string) :
  (args_write args = false -> snd (main' cfg args fs) = fs) /\
  (forall e, run cfg = Raise e -> main' cfg args fs = (Uncaught e, fs)) /\
  (args_write args = false -> (exists out, run cfg = Ok out) ->
   fs !! path_join (args_outdir args) "timeline.log" = None \/
   fs !! path_join (args_outdir args) "metrics.csv" = None ->
   main' cfg args fs = (SystemExit MISSING, fs)).
Proof.
  unfold main, _read_bytes. split; [|split].
  - intros ->. destruct (run cfg) as [[[timeline rows] sm]|e]; [|reflexivity].
    rewrite andb_true_r.
    assert (Hv : (if negb false && negb (args_verify args) then true
                  else args_verify args) = true)
      by (destruct (args_verify args); reflexivity).
    rewrite Hv. simpl.
    destruct (fs !! _) as [old_tl|]; [|reflexivity].
    destruct (fs !! _) as [old_mx|]; [|reflexivity].
    repeat match goal with
      | |- context [if ?b then _ else _] => destruct b
      end; reflexivity.
  - intros e ->. reflexivity.
  - intros -> [[[timeline rows] sm] ->] Hmissing.
    assert (Hv : (if negb false && negb (args_verify args) then true
                  else args_verify args) = true)
      by (destruct (args_verify args); reflexivity).
    rewrite Hv. simpl. destruct Hmissing as [->| ->]; [reflexivity|].
    destruct (fs !! _); reflexivity.
Qed.

(** X16: freezing and then verifying succeeds: for a configuration with
    a non-negative horizon whose run completes, distinct paths for the
    two artifacts, and directories that [os.makedirs] can make, verifying
    against the store left by [--write] prints VERIFY OK with the summary
    and leaves that store as it is. *)
Theorem freeze_then_verify
    (cfg : Config) (outdir : string) (v v' : bool) (fs : gmap string string)
    (timeline : list string) (rows : list MetricsRow) (sm : Summary) :
  run cfg = Ok (timeline, rows, sm) ->
  0 <= max_tick cfg ->
  path_join outdir "timeline.log" <> path_join outdir "metrics.csv" ->
  makedirs' (path_dirname (path_join outdir "timeline.log")) = Ok tt ->
  makedirs' (path_dirname (path_join outdir "metrics.csv")) = Ok tt ->
  let frozen := snd (main' cfg (mkArgs outdir true v) fs) in
  main' cfg (mkArgs outdir false v') frozen
  = (Returned ("VERIFY OK" :: summary_lines sm), frozen).
Proof.
  intros Hrun Hmax Hpaths Htl Hmx. cbv zeta.
  pose proof (run_rows_nonempty cfg timeline rows sm Hrun Hmax) as Hne.
  rewrite (main_freezes cfg outdir v fs timeline rows sm Hrun Htl Hmx).
  cbn [snd]. rewrite (main_verifies cfg outdir v' _ timeline rows sm Hrun).
  rewrite lookup_insert_ne by congruence.
  rewrite !lookup_insert_eq. unfold _serialize_csv.
  destruct rows as [|row rows]; [contradiction|].
  rewrite !String.eqb_refl. reflexivity.
Qed.

(** X17: freezing overwrites: running [--write] again, in the same
    environment, on the store the first [--write] left gives the same
    outcome and the same store, whether the first one stored both
    artifacts or left through an exception of [os.makedirs]. *)
Theorem freeze_twice
    (cfg : Config) (outdir : string) (v v' : bool) (fs : gmap string string) :
  main' cfg (mkArgs outdir true v') (snd (main' cfg (mkArgs outdir true v) fs))
  = main' cfg (mkArgs outdir true v) fs.
Proof.
  unfold main, _write_text, _write_csv.
  cbn [args_write args_verify args_outdir].
  destruct (run cfg) as [[[timeline rows] sm]|e]; [|reflexivity].
  replace ((if negb true && negb v then true else v) && negb true) with false
    by (destruct v; reflexivity).
  replace ((if negb true && negb v' then true else v') && negb true) with false
    by (destruct v'; reflexivity).
  destruct (makedirs' (path_dirname (path_join outdir "timeline.log")))
    as [[]|e1]; simpl; [|reflexivity].
  destruct (makedirs' (path_dirname (path_join outdir "metrics.csv")))
    as [[]|e2]; simpl.
  - f_equal. apply map_eq. intros p.
    rewrite !lookup_insert. repeat case_decide; reflexivity.
  - rewrite insert_insert_eq. reflexivity.
Qed.

(** X18: for a negative horizon the two writers of the metrics disagree:
    [--write] (its directories made) stores the csv line of an empty
    header, there being no row to take field names from, while
    verification regenerates the empty byte string.  Verifying right
    after freezing therefore succeeds exactly when the two have the same
    digest, and otherwise exits with the metrics mismatch. *)
Theorem freeze_then_verify_without_ticks
    (cfg : Config) (outdir : string) (v v' : bool) (fs : gmap string string) :
  max_tick cfg < 0 ->
  path_join outdir "timeline.log" <> path_join outdir "metrics.csv" ->
  makedirs' (path_dirname (path_join outdir "timeline.log")) = Ok tt ->
  makedirs' (path_dirname (path_join outdir "metrics.csv")) = Ok tt ->
  let frozen := snd (main' cfg (mkArgs outdir true v) fs) in
  frozen !! path_join outdir "metrics.csv" = Some (csv_line []) /\
  main' cfg (mkArgs outdir false v') frozen
  = (if String.eqb (sha256_hexdigest (csv_line [])) (sha256_hexdigest "")
     then Returned ("VERIFY OK" :: summary_lines (summarise cfg State_default))
     else SystemExit METRICS_MISMATCH,
     frozen).
Proof.
  intros Hneg Hpaths Htl Hmx. cbv zeta.
  pose proof (run_negative_horizon cfg Hneg) as Hrun.
  rewrite (main_freezes cfg outdir v fs _ _ _ Hrun Htl Hmx).
  cbn [snd]. rewrite (main_verifies cfg outdir v' _ _ _ _ Hrun).
  unfold csv_text. simpl map. simpl String.concat. rewrite append_empty_r.
  split; [apply lookup_insert_eq|].
  rewrite lookup_insert_ne by congruence.
  rewrite !lookup_insert_eq, String.eqb_refl. cbn [negb _serialize_csv].
  destruct (String.eqb _ _); reflexivity.
Qed.

(** X21: freezing needs the directory of the artifacts: when
    [os.makedirs] raises for the directory of timeline.log, [--write]
    leaves through that exception and stores nothing; this is what
    happens when that directory name is empty, for which [os.makedirs]
    raises [FileNotFoundError]. *)
Theorem freeze_needs_directory
    (cfg : Config) (outdir : string) (v : bool) (fs : gmap string string) :
  (exists out, run cfg = Ok out) ->
  (forall e,
     makedirs' (path_dirname (path_join outdir "timeline.log")) = Raise e ->
     main' cfg (mkArgs outdir true v) fs = (Uncaught e, fs)) /\
  (path_dirname (path_join outdir "timeline.log") = "" ->
   main' cfg (mkArgs outdir true v) fs = (Uncaught NO_SUCH_DIRECTORY, fs)).
Proof.
  intros [[[timeline rows] sm] Hrun].
  assert (Hfail : forall e,
            makedirs' (path_dirname (path_join outdir "timeline.log")) = Raise e ->
            main' cfg (mkArgs outdir true v) fs = (Uncaught e, fs)).
  { intros e He. unfold main, _write_text. rewrite Hrun.
    cbn [args_write args_verify args_outdir].
    replace ((if negb true && negb v then true else v) && negb true) with false
      by (destruct v; reflexivity).
    rewrite He. reflexivity. }
  split; [exact Hfail|]. intros Hdir. apply Hfail.
  unfold os_makedirs. rewrite Hdir. reflexivity.
Qed.

End ArtifactProperties.

Lemma verify_flag_is_inert_witness :
  exists sm frozen,
    main plain_digest plain_csv_line posix_join posix_dirname makedirs_succeeds
      example_cfg (mkArgs "output" true true) ∅
    = (Returned (["WROTE FROZEN ARTIFACTS"; "output/timeline.log";
                  "output/metrics.csv"] ++ summary_lines sm)%list, frozen) /\
    is_Some (frozen !! "output/timeline.log") /\
    is_Some (frozen !! "output/metrics.csv").
Proof.
  destruct (run example_cfg) as [[[timeline rows] sm]|] eqn:Hrun;
    [|vm_compute in Hrun; discriminate].
  destruct (verify_flag_is_inert plain_digest plain_csv_line posix_join
              posix_dirname makedirs_succeeds example_cfg "output" true false ∅)
    as (_ & Hfreeze & _).
  rewrite (Hfreeze timeline rows sm Hrun eq_refl eq_refl).
  eexists sm, _. split; [reflexivity|].
  change (posix_join "output" "timeline.log") with "output/timeline.log".
  change (posix_join "output" "metrics.csv") with "output/metrics.csv".
  split.
  - rewrite lookup_insert_ne by discriminate. rewrite lookup_insert_eq. eauto.
  - rewrite lookup_insert_eq. eauto.
Defined.

Lemma main_keeps_store_witness :
  main plain_digest plain_csv_line posix_join posix_dirname makedirs_succeeds
    example_cfg (mkArgs "output" false false) ∅
  = (SystemExit MISSING, ∅).
Proof.
  apply (main_keeps_store plain_digest plain_csv_line posix_join posix_dirname
           makedirs_succeeds example_cfg (mkArgs "output" false false) ∅).
  - reflexivity.
  - destruct (run example_cfg) as [out|e] eqn:Hrun;
      [eauto | vm_compute in Hrun; discriminate Hrun].
  - left. apply lookup_empty.
Defined.

Lemma freeze_then_verify_witness :
  exists sm,
    fst (main plain_digest plain_csv_line posix_join posix_dirname
           makedirs_succeeds example_cfg (mkArgs "output" false false)
           (snd (main plain_digest plain_csv_line posix_join posix_dirname
                   makedirs_succeeds example_cfg (mkArgs "output" true false) ∅)))
    = Returned ("VERIFY OK" :: summary_lines sm).
Proof.
  destruct (run example_cfg) as [[[timeline rows] sm]|] eqn:Hrun;
    [|vm_compute in Hrun; discriminate].
  exists sm.
  rewrite (freeze_then_verify plain_digest plain_csv_line posix_join
             posix_dirname makedirs_succeeds example_cfg
             "output" false false ∅ timeline rows sm Hrun);
    [reflexivity | simpl; lia | vm_compute; discriminate
    | reflexivity | reflexivity].
Defined.

Lemma freeze_then_verify_without_ticks_witness :
  fst (main plain_digest plain_csv_line posix_join posix_dirname
         makedirs_succeeds empty_cfg (mkArgs "output" false false)
         (snd (main plain_digest plain_csv_line posix_join posix_dirname
                 makedirs_succeeds empty_cfg (mkArgs "output" true false) ∅)))
  = SystemExit METRICS_MISMATCH.
Proof.
  destruct (freeze_then_verify_without_ticks plain_digest plain_csv_line
              posix_join posix_dirname makedirs_succeeds empty_cfg
              "output" false false ∅)
    as [_ Hverify];
    [simpl; lia | vm_compute; discriminate | reflexivity | reflexivity |].
  rewrite Hverify. reflexivity.
Defined.

Lemma freeze_needs_directory_witness :
  main plain_digest plain_csv_line posix_join posix_dirname makedirs_succeeds
    example_cfg (mkArgs "" true false) ∅
  = (Uncaught NO_SUCH_DIRECTORY, ∅).
Proof.
  apply (freeze_needs_directory plain_digest plain_csv_line posix_join
           posix_dirname makedirs_succeeds example_cfg "" false ∅).
  - destruct (run example_cfg) as [out|e] eqn:Hrun;
      [eauto | vm_compute in Hrun; discriminate Hrun].
  - reflexivity.
Defined.

(** * The operator's assumption is an audit marker *)

Lemma same_but_operator_tick_set o st :
  same_but_operator_tick (set_operator_assumption_tick o st) st.
Proof. reflexivity. Qed.

Lemma _apply_event_same_but_operator_tick st1 st2 ev :
  same_but_operator_tick st1 st2 ->
  match _apply_event st1 ev, _apply_event st2 ev with
  | Ok (s1, a1), Ok (s2, a2) => same_but_operator_tick s1 s2 /\ a1 = a2
  | Raise m1, Raise m2 => m1 = m2
  | _, _ => False
  end.
Proof.
  unfold same_but_operator_tick. case_state st1.
  destruct st2 as [tk2 rat2 role2 dep2 use2 rev2 cache2 streak2 oat2 aat2 tot2 den2 rvk2].
  simpl. intros [= -> -> -> -> -> -> -> -> -> -> -> ->].
  unfold _apply_event, details_get. cbv zeta. simpl.
  destruct (ev_details ev) as [|m|type_name];
    repeat match goal with
      | |- context [if ?b then _ else _] => destruct b
      end; simpl; auto.
Qed.

Lemma apply_events_same_but_operator_tick t evs st1 st2 tl1 tl2 :
  same_but_operator_tick st1 st2 ->
  match apply_events t evs st1 tl1,
        apply_events t
          (filter (fun ev => ev_event ev <> "operator_assumes_propagation_complete")
             evs) st2 tl2 with
  | Ok (s1, _), Ok (s2, _) => same_but_operator_tick s1 s2
  | Raise m1, Raise m2 => m1 = m2
  | _, _ => False
  end.
Proof.
  revert st1 st2 tl1 tl2. induction evs as [|ev evs IH]; intros st1 st2 tl1 tl2 Hsame.
  - exact Hsame.
  - rewrite filter_cons. destruct (decide _) as [Hkeep|Hdrop].
    + simpl. pose proof (_apply_event_same_but_operator_tick st1 st2 ev Hsame) as H.
      destruct (_apply_event st1 ev) as [[s1 a1]|m1],
               (_apply_event st2 ev) as [[s2 a2]|m2]; simpl; try contradiction.
      * destruct H as [H _]. apply IH, H.
      * exact H.
    + apply dec_stable in Hdrop. simpl.
      assert (Hop : _apply_event st1 ev
                    = Ok (set_operator_assumption_tick (Some (tick st1)) st1,
                          "operator_assumes_propagation_complete (control-plane view)")).
      { unfold _apply_event. rewrite Hdrop. reflexivity. }
      rewrite Hop. simpl. apply IH.
      unfold same_but_operator_tick in *. rewrite <- Hsame. reflexivity.
Qed.

Lemma _service_request_set_operator_tick o st params rs :
  _service_request (set_operator_assumption_tick o st) params rs
  = _service_request st params rs.
Proof.
  unfold _service_request. simpl.
  destruct (negb _); [reflexivity|]. destruct (service_account_revoked st);
    [reflexivity|].
  induction rs as [|r rs IH]; simpl; [reflexivity|].
  destruct (negb _); [reflexivity | exact IH].
Qed.

Lemma serve_tick_set_operator_tick o params rs t st tl tl' rows :
  state (serve_tick params rs t (set_operator_assumption_tick o st) tl rows)
  = set_operator_assumption_tick o (state (serve_tick params rs t st tl' rows)) /\
  metrics_rows (serve_tick params rs t (set_operator_assumption_tick o st) tl rows)
  = metrics_rows (serve_tick params rs t st tl' rows).
Proof.
  rewrite !serve_tick_state, !serve_tick_rows. cbv zeta.
  rewrite _service_request_set_operator_tick.
  destruct (_service_request st params rs) as [ok reason]. cbn [fst snd].
  case_state st. unfold _observer_color, _automation_step. simpl.
  destruct ok; simpl; branches; try congruence; split; reflexivity.
Qed.

Lemma serve_tick_same_but_operator_tick params rs t st1 st2 tl1 tl2 rows :
  same_but_operator_tick st1 st2 ->
  same_but_operator_tick (state (serve_tick params rs t st1 tl1 rows))
    (state (serve_tick params rs t st2 tl2 rows)) /\
  metrics_rows (serve_tick params rs t st1 tl1 rows)
  = metrics_rows (serve_tick params rs t st2 tl2 rows).
Proof.
  intros Hsame.
  assert (Hform : exists st0 o1 o2,
            st1 = set_operator_assumption_tick o1 st0 /\
            st2 = set_operator_assumption_tick o2 st0).
  { exists (set_operator_assumption_tick None st1),
      (operator_assumption_tick st1), (operator_assumption_tick st2).
    split; [case_state st1; reflexivity|].
    rewrite Hsame. destruct st2; reflexivity. }
  destruct Hform as (st0 & o1 & o2 & -> & ->).
  destruct (serve_tick_set_operator_tick o1 params rs t st0 tl1 tl1 rows)
    as [-> ->].
  destruct (serve_tick_set_operator_tick o2 params rs t st0 tl2 tl1 rows)
    as [-> ->].
  split; reflexivity.
Qed.

Lemma events_at_drop_operator cfg t :
  events_at (drop_operator_events cfg) t
  = filter (fun ev => ev_event ev <> "operator_assumes_propagation_complete")
      (events_at cfg t).
Proof.
  rewrite !events_at_as_filter. unfold drop_operator_events. simpl.
  rewrite !list_filter_filter. apply list_filter_iff. intros ev. tauto.
Qed.

Lemma run_upto_drop_operator cfg n :
  match run_upto cfg n, run_upto (drop_operator_events cfg) n with
  | Ok r1, Ok r2 =>
      same_but_operator_tick (state r1) (state r2) /\
      metrics_rows r1 = metrics_rows r2
  | Raise m1, Raise m2 => m1 = m2
  | _, _ => False
  end.
Proof.
  induction n as [|n IH]; [rewrite !run_upto_0; split; reflexivity|].
  rewrite !run_upto_S.
  destruct (run_upto cfg n) as [r1|m1],
           (run_upto (drop_operator_events cfg) n) as [r2|m2];
    try contradiction; [|exact IH].
  destruct IH as [Hsame Hrows]. unfold mbind, result_bind, tick_body.
  change (parameters (drop_operator_events cfg)) with (parameters cfg).
  change (regions (drop_operator_events cfg)) with (regions cfg).
  change (default [] (group_events (incident_events cfg) !! Z.of_nat n))
    with (events_at cfg (Z.of_nat n)).
  change (default [] (group_events (incident_events (drop_operator_events cfg))
                        !! Z.of_nat n))
    with (events_at (drop_operator_events cfg) (Z.of_nat n)).
  rewrite events_at_drop_operator.
  pose proof (apply_events_same_but_operator_tick (Z.of_nat n)
                (events_at cfg (Z.of_nat n))
                (set_tick (Z.of_nat n) (state r1)) (set_tick (Z.of_nat n) (state r2))
                (timeline_lines r1) (timeline_lines r2)) as H.
  assert (Hset : same_but_operator_tick (set_tick (Z.of_nat n) (state r1))
                   (set_tick (Z.of_nat n) (state r2))).
  { unfold same_but_operator_tick in *.
    apply (f_equal (set_tick (Z.of_nat n))) in Hsame. exact Hsame. }
  specialize (H Hset).
  destruct (apply_events _ (events_at cfg _) _ _) as [[s1 t1]|e1],
           (apply_events _ (filter _ _) _ _) as [[s2 t2]|e2];
    try contradiction; [|exact H].
  rewrite Hrows. apply serve_tick_same_but_operator_tick, H.
Qed.

Lemma run_drop_operator (cfg : Config) :
  match run cfg, run (drop_operator_events cfg) with
  | Ok (_, rows1, sm1), Ok (_, rows2, sm2) =>
      rows1 = rows2 /\
      sm2 = mkSummary (sm_scenario_name sm1) (sm_max_tick sm1)
              (sm_required_role sm1) (sm_role_attached_tick sm1)
              (sm_operator_assumption_tick sm2)
              (sm_automation_action_tick sm1) (sm_total_requests sm1)
              (sm_denied_requests sm1) (sm_revoked_requests sm1)
              (sm_propagation_lag_ticks sm1) (sm_observer_cache_ttl_ticks sm1)
              (sm_automation_trigger_after_ticks sm1)
  | Raise m1, Raise m2 => m1 = m2
  | _, _ => False
  end.
Proof.
  rewrite !run_unfold.
  pose proof (run_upto_drop_operator cfg (Z.to_nat (max_tick cfg + 1))) as H.
  change (max_tick (drop_operator_events cfg)) with (max_tick cfg).
  destruct (run_upto cfg _) as [r1|m1],
           (run_upto (drop_operator_events cfg) _) as [r2|m2];
    simpl; try contradiction; [|exact H].
  destruct H as [Hsame Hrows]. split; [exact Hrows|].
  unfold summarise, same_but_operator_tick in *. simpl.
  destruct (state r1), (state r2). simpl in *.
  injection Hsame as -> -> -> -> -> -> -> -> -> -> -> ->. reflexivity.
Qed.

(** X19: operator_assumes_propagation_complete events are audit markers
    only: without them a run that completes still completes with the
    same metrics rows and a summary that differs at most in
    [operator_assumption_tick], and a run that raises still raises the
    same exception. *)
Theorem operator_events_are_audit_only (cfg : Config) :
  (forall timeline rows sm,
     run cfg = Ok (timeline, rows, sm) ->
     exists timeline' sm',
       run (drop_operator_events cfg) = Ok (timeline', rows, sm') /\
       sm' = mkSummary (sm_scenario_name sm) (sm_max_tick sm)
               (sm_required_role sm) (sm_role_attached_tick sm)
               (sm_operator_assumption_tick sm')
               (sm_automation_action_tick sm) (sm_total_requests sm)
               (sm_denied_requests sm) (sm_revoked_requests sm)
               (sm_propagation_lag_ticks sm) (sm_observer_cache_ttl_ticks sm)
               (sm_automation_trigger_after_ticks sm)) /\
  (forall msg, run cfg = Raise msg -> run (drop_operator_events cfg) = Raise msg).
Proof.
  pose proof (run_drop_operator cfg) as H. split.
  - intros timeline rows sm Hrun. rewrite Hrun in H.
    destruct (run (drop_operator_events cfg)) as [[[timeline' rows'] sm']|m];
      [|contradiction].
    destruct H as [-> Hsm]. exists timeline', sm'. split; [reflexivity | exact Hsm].
  - intros msg Hrun. rewrite Hrun in H.
    destruct (run (drop_operator_events cfg)) as [[[timeline' rows'] sm']|m];
      [contradiction | congruence].
Qed.

Lemma operator_events_are_audit_only_witness :
  exists timeline rows sm timeline' sm',
    run operator_cfg = Ok (timeline, rows, sm) /\
    run (drop_operator_events operator_cfg) = Ok (timeline', rows, sm') /\
    sm_operator_assumption_tick sm = Some 1 /\
    sm_operator_assumption_tick sm' = None /\
    sm_denied_requests sm' = sm_denied_requests sm.
Proof.
  destruct (run operator_cfg) as [[[timeline rows] sm]|] eqn:Hrun;
    [|vm_compute in Hrun; discriminate].
  destruct (proj1 (operator_events_are_audit_only operator_cfg)
              timeline rows sm Hrun) as (timeline' & sm' & Hrun' & Hsm).
  exists timeline, rows, sm, timeline', sm'.
  split; [reflexivity|]. split; [exact Hrun'|].
  split; [pose proof Hrun as H; vm_compute in H; injection H as _ _ <-; reflexivity|].
  split; [pose proof Hrun' as H; vm_compute in H; injection H as _ _ <-; reflexivity|].
  rewrite Hsm. reflexivity.
Defined.
